(** * render_mcp_server: the Render build-log debug agent

    A shallow embedding of [render_mcp_debug_agent/render_mcp_server.py]:
    the access guard [simple_auth_ok], the log fetcher [get_build_logs],
    the [/debug] handler [debug_with_ai] with its keyword diagnoser and
    fix mapper, and the routes [fetch_logs], [health] and [ready].

    Python strings are sequences of Unicode code points; the network and
    the traceback printer are the environment of an exception-and-trace
    monad in which the handlers run. *)

From Stdlib Require Import List ZArith Bool Lia String Ascii DecimalString.
From Stdlib Require Import SpecFloat.
Import ListNotations.

Local Open Scope Z_scope.
Local Open Scope list_scope.
Set Warnings "-register-all".

(* ================================================================== *)
(** * Python strings *)
(* ================================================================== *)

Module PyStr.

(** A [str] is the list of its code points. *)
Definition str : Type := list Z.

(** An ASCII literal of the source, as a [str]. *)
Definition py (s : string) : str :=
  map (fun a => Z.of_N (N_of_ascii a)) (list_ascii_of_string s).

(** U+2014 EM DASH, the one non-ASCII character of the source literals. *)
Definition em_dash : Z := 8212.

Definition str_eqb (a b : str) : bool :=
  if list_eq_dec Z.eq_dec a b then true else false.

(** [bool(s)] / [not s] on a string: the empty string is falsy. *)
Definition nonempty (s : str) : bool :=
  match s with [] => false | _ :: _ => true end.

(** ** [p in s] *)

Fixpoint starts_with (p s : str) : bool :=
  match p, s with
  | [], _ => true
  | _ :: _, [] => false
  | a :: p', b :: s' => (a =? b) && starts_with p' s'
  end.

Fixpoint str_in (p s : str) : bool :=
  starts_with p s ||
  match s with
  | [] => false
  | _ :: s' => str_in p s'
  end.

(** ** [s.lower()]

    The ASCII capitals map to their small letters.  Outside ASCII only
    two code points lower-case to something that contains an ASCII
    letter: U+212A KELVIN SIGN (to [k]) and U+0130 (to [i] followed by
    U+0307).  Every other non-ASCII code point is kept as it is here:
    its lower-casing in Python is again non-ASCII, so the occurrences of
    an ASCII pattern in the result are the same. *)

Definition ascii_lower (c : Z) : Z :=
  if (65 <=? c) && (c <=? 90) then c + 32 else c.

Definition lower_cp (c : Z) : list Z :=
  if c =? 8490 then [107]
  else if c =? 304 then [105; 775]
  else [ascii_lower c].

Definition lower (s : str) : str := flat_map lower_cp s.

(** ** [s.strip()]

    The code points Python's [str.strip()] removes with no argument. *)

Definition isspace (c : Z) : bool :=
  ((9 <=? c) && (c <=? 13)) || ((28 <=? c) && (c <=? 32))
  || (c =? 133) || (c =? 160) || (c =? 5760)
  || ((8192 <=? c) && (c <=? 8202))
  || (c =? 8232) || (c =? 8233) || (c =? 8239) || (c =? 8287)
  || (c =? 12288).

Fixpoint lstrip (s : str) : str :=
  match s with
  | [] => []
  | c :: s' => if isspace c then lstrip s' else s
  end.

Definition rstrip (s : str) : str := rev (lstrip (rev s)).

Definition strip (s : str) : str := rstrip (lstrip s).

(** ** [s.split(sep)] for a one-character separator

    Every separator cuts; empty pieces are kept, and the split of the
    empty string is the list of one empty piece. *)

Fixpoint split (sep : Z) (s : str) : list str :=
  match s with
  | [] => [[]]
  | c :: s' =>
      if c =? sep then [] :: split sep s'
      else match split sep s' with
           | [] => [[c]]
           | w :: ws => (c :: w) :: ws
           end
  end.

(** [sep.join(pieces)], the inverse of [split]. *)
Fixpoint join (sep : Z) (l : list str) : str :=
  match l with
  | [] => []
  | [w] => w
  | w :: ws => w ++ sep :: join sep ws
  end.

(** [x in l] for a list of strings. *)
Definition list_in (x : str) (l : list str) : bool :=
  existsb (str_eqb x) l.

(** [str(n)] for a non-negative integer. *)
Definition str_of_Z (n : Z) : str :=
  py (NilEmpty.string_of_uint (N.to_uint (Z.to_N n))).

End PyStr.
Import PyStr.

(* ================================================================== *)
(** * Python values, exceptions and the handler monad *)
(* ================================================================== *)

(** The values a decoded JSON body is made of.  A JSON number is an
    [int] or a [float]; a float is a zero, an infinity, a NaN or a
    finite number with sign, mantissa and exponent. *)
Inductive PyVal : Type :=
| PNone
| PBool (b : bool)
| PInt (n : Z)
| PFloat (x : spec_float)
| PStr (s : str)
| PList (l : list PyVal)
| PDict (d : list (str * PyVal)).

(** [bool(v)]. *)
Definition truthy (v : PyVal) : bool :=
  match v with
  | PNone => false
  | PBool b => b
  | PInt n => negb (n =? 0)
  | PFloat x => match x with S754_zero _ => false | _ => true end
  | PStr s => nonempty s
  | PList l => match l with [] => false | _ :: _ => true end
  | PDict d => match d with [] => false | _ :: _ => true end
  end.

(** [a or b]. *)
Definition py_or (a b : PyVal) : PyVal := if truthy a then a else b.

Definition type_name (v : PyVal) : str :=
  match v with
  | PNone => py "NoneType"
  | PBool _ => py "bool"
  | PInt _ => py "int"
  | PFloat _ => py "float"
  | PStr _ => py "str"
  | PList _ => py "list"
  | PDict _ => py "dict"
  end.

Inductive ExcClass : Type :=
| RuntimeError
| AttributeError
| HTTPError          (* requests: raised by [raise_for_status] *)
| RequestException   (* requests: time-out, connection failure, ... *)
| HTTPException.     (* werkzeug: raised while reading [request.json] *)

(** An exception; [exc_str] is [str(e)]. *)
Record Exception : Type := mkExc { exc_class : ExcClass; exc_str : str }.

(** What [requests.get] is called with and what it gives back. *)
Record HttpRequest : Type := mkHttpRequest {
  req_url : str;
  req_headers : list (str * str);
  req_timeout : Z
}.

Record HttpResponse : Type := mkHttpResponse {
  status_code : Z;
  reason : str;
  url : str;
  text : str
}.

(** The two routes that have an [except] clause printing a trace. *)
Inductive Handler : Type := in_fetch_logs | in_debug_with_ai.

(** The environment of a handler: the upstream API behind
    [requests.get], and [traceback.format_exc()].  The text of a trace
    names the handler that caught the exception, the line of its [try]
    block that was running and the calls below it.  In a handler the
    class of an exception tells the line it comes from ([request.json],
    [payload.get], [get_build_logs()] and its three statements,
    [build_output.lower()]), so the trace is given for the handler and
    the exception; nothing relates the traces two handlers print. *)
Record Env : Type := mkEnv {
  upstream : HttpRequest -> Exception + HttpResponse;
  format_exc : Handler -> Exception -> str
}.

(** A computation reads the environment, extends the list of the
    requests sent upstream so far, and returns or raises. *)
Definition M (A : Type) : Type :=
  Env -> list HttpRequest -> (Exception + A) * list HttpRequest.

Definition ret {A} (a : A) : M A := fun _ sent => (inr a, sent).

Definition raise {A} (e : Exception) : M A := fun _ sent => (inl e, sent).

Definition bind {A B} (m : M A) (k : A -> M B) : M B :=
  fun env sent =>
    match m env sent with
    | (inl e, sent') => (inl e, sent')
    | (inr a, sent') => k a env sent'
    end.

(** [try: m except Exception as e: h e]. *)
Definition try_except {A} (m : M A) (h : Exception -> M A) : M A :=
  fun env sent =>
    match m env sent with
    | (inl e, sent') => h e env sent'
    | (inr a, sent') => (inr a, sent')
    end.

Definition of_result {A} (r : Exception + A) : M A :=
  fun _ sent => (r, sent).

Notation "x <- m ;; k" := (bind m (fun x => k))
  (at level 61, m at next level, right associativity).

(** [requests.get(url, headers=headers, timeout=timeout)]: the one
    operation that reaches the network. *)
Definition requests_get (u : str) (headers : list (str * str)) (timeout : Z)
  : M HttpResponse :=
  fun env sent =>
    let rq := mkHttpRequest u headers timeout in
    (upstream env rq, sent ++ [rq]).

(** [r.raise_for_status()]. *)
Definition raise_for_status (r : HttpResponse) : M unit :=
  if (400 <=? status_code r) && (status_code r <? 500) then
    raise (mkExc HTTPError
             (str_of_Z (status_code r) ++ py " Client Error: " ++ reason r
              ++ py " for url: " ++ url r))
  else if (500 <=? status_code r) && (status_code r <? 600) then
    raise (mkExc HTTPError
             (str_of_Z (status_code r) ++ py " Server Error: " ++ reason r
              ++ py " for url: " ++ url r))
  else ret tt.

Definition traceback_format_exc (h : Handler) (e : Exception) : M str :=
  fun env sent => (inr (format_exc env h e), sent).

Definition attribute_error {A} (v : PyVal) (attr : string) : M A :=
  raise (mkExc AttributeError
           (py "'" ++ type_name v ++ py "' object has no attribute '"
            ++ py attr ++ py "'")).

Fixpoint assoc (k : str) (d : list (str * PyVal)) : option PyVal :=
  match d with
  | [] => None
  | (k', v) :: d' => if str_eqb k k' then Some v else assoc k d'
  end.

(** [v.get(key, default)]: a dict is looked up, any other value has no
    [get]. *)
Definition py_get (v : PyVal) (key : str) (default : PyVal) : M PyVal :=
  match v with
  | PDict d => ret (match assoc key d with Some x => x | None => default end)
  | _ => attribute_error v "get"
  end.

(** [v.lower()]: only a string has it. *)
Definition py_lower (v : PyVal) : M str :=
  match v with
  | PStr s => ret (lower s)
  | _ => attribute_error v "lower"
  end.

(* ================================================================== *)
(** * Configuration and requests *)
(* ================================================================== *)

(** The three module-level values read from the environment variables;
    an unset variable is the empty string. *)
Record Config : Type := mkConfig {
  RENDER_API_TOKEN : str;
  RENDER_SERVICE_ID : str;
  ALLOWED_KEYS : str
}.

(** The incoming request: its headers, and what evaluating
    [request.json] gives ([None] is [PNone]). *)
Record Request : Type := mkRequest {
  headers : list (str * str);
  json : Exception + PyVal
}.

(** [req.headers.get(name, default)]: header names compare without
    regard to case, the first match wins. *)
Fixpoint headers_get (hs : list (str * str)) (name default : str) : str :=
  match hs with
  | [] => default
  | (k, v) :: hs' =>
      if str_eqb (lower k) (lower name) then v
      else headers_get hs' name default
  end.

(** The reply of a route: [jsonify(body), status]. *)
Record Reply : Type := mkReply { status : Z; body : PyVal }.

Definition comma : Z := 44.

(* ================================================================== *)
(** * The string literals of the program *)
(* ================================================================== *)

(** Rule 1, the missing-package message. *)
Definition msg_module : str :=
  py "ModuleNotFoundError detected " ++ em_dash :: py " missing Python package. Add the missing package to requirements.txt and redeploy.".

(** Rule 2. *)
Definition msg_syntax : str :=
  py "SyntaxError detected " ++ em_dash :: py " check indentation, parentheses or invalid syntax in the mentioned file and line number.".

(** Rule 3. *)
Definition msg_pip : str :=
  py "pip install failure " ++ em_dash :: py " try pinning dependency versions or increasing build resources. Check wheels vs source build.".

(** Rule 4. *)
Definition msg_permission : str :=
  py "Permission denied " ++ em_dash :: py " check file permissions and user running the build step.".

(** Rule 5. *)
Definition msg_memory : str :=
  py "Out of memory " ++ em_dash :: py " build is exceeding memory limits; try smaller build or increase plan.".

(** The message when no rule applies. *)
Definition msg_fallback : str :=
  py "No obvious pattern detected. Consider sharing a larger snippet of the build log or running the build locally for step-by-step debugging.".

(** The five remediation strings. *)
Definition fix_package : str :=
  py "Add the missing package to requirements.txt; ensure correct package name/version; then redeploy.".

Definition fix_syntax : str :=
  py "Open the file and inspect the indicated line number for syntax issues; run `python -m pyflakes <file>` or `python -m py_compile <file>` locally.".

Definition fix_pip : str :=
  py "Pin dependency versions in requirements.txt, try `pip wheel` for heavy packages, or add system dependencies in your Render build script.".

Definition fix_memory : str :=
  py "Use smaller build, split heavy dependencies, or upgrade Render plan. Add swap in build stage if possible.".

Definition fix_generic : str :=
  py "Inspect logs, confirm environment variables, and retry the build.".

Definition note : str :=
  py "This is a heuristic assistant. For deeper analysis, connect an LLM and forward the logs for natural-language diagnosis.".

Definition config_error_message : str :=
  py "RENDER_API_TOKEN and RENDER_SERVICE_ID must be set as environment variables.".

(* ================================================================== *)
(** * The program *)
(* ================================================================== *)

Section Program.

Variable cfg : Config.

(** [get_build_logs()] *)
Definition get_build_logs : M str :=
  if negb (nonempty (RENDER_API_TOKEN cfg))
     || negb (nonempty (RENDER_SERVICE_ID cfg))
  then raise (mkExc RuntimeError config_error_message)
  else
    let headers :=
      [ (py "Authorization", py "Bearer " ++ RENDER_API_TOKEN cfg);
        (py "Accept", py "application/json") ] in
    let url :=
      py "https://api.render.com/v1/services/" ++ RENDER_SERVICE_ID cfg
      ++ py "/logs" in
    r <- requests_get url headers 30 ;;
    _ <- raise_for_status r ;;
    ret (text r).

(** [simple_auth_ok(req)] *)
Definition simple_auth_ok (req : Request) : bool :=
  if negb (nonempty (ALLOWED_KEYS cfg)) then true
  else
    let key := headers_get (headers req) (py "X-API-KEY") [] in
    let allowed :=
      map strip
        (filter (fun k => nonempty (strip k))
           (split comma (ALLOWED_KEYS cfg))) in
    list_in key allowed.

(** The heuristic analysis of [debug_with_ai], from the lower-cased
    build output to the list [diagnostics]: five [if]s, each appending
    at most one message, and the fallback when the list is still
    empty. *)
Definition diagnostics (lower : str) : list str :=
  let diagnostics := [] in
  let diagnostics :=
    if str_in (py "module not founderror") lower
       || str_in (py "modulenotfounderror") lower
    then diagnostics ++ [msg_module] else diagnostics in
  let diagnostics :=
    if str_in (py "syntaxerror") lower
    then diagnostics ++ [msg_syntax] else diagnostics in
  let diagnostics :=
    if str_in (py "pip install") lower
       && (str_in (py "failed") lower || str_in (py "error") lower)
    then diagnostics ++ [msg_pip] else diagnostics in
  let diagnostics :=
    if str_in (py "permission denied") lower
    then diagnostics ++ [msg_permission] else diagnostics in
  let diagnostics :=
    if str_in (py "out of memory") lower || str_in (py "oom") lower
    then diagnostics ++ [msg_memory] else diagnostics in
  let diagnostics :=
    match diagnostics with
    | [] => diagnostics ++ [msg_fallback]
    | _ :: _ => diagnostics
    end in
  diagnostics.

(** The body of the loop over [diagnostics]: the [if]/[elif] chain that
    picks the fix appended for the diagnostic [d]. *)
Definition fix_for (d : str) : str :=
  if str_in (py "missing python package") (lower d)
     || str_in (py "modulenotfounderror") (lower d)
  then fix_package
  else if str_in (py "syntaxerror") (lower d) then fix_syntax
  else if str_in (py "pip install failure") (lower d) then fix_pip
  else if str_in (py "out of memory") (lower d) then fix_memory
  else fix_generic.

(** [suggested_fixes = []; for d in diagnostics: suggested_fixes.append(...)] *)
Definition suggested_fixes (diagnostics : list str) : list str :=
  fold_left (fun suggested_fixes d => suggested_fixes ++ [fix_for d])
    diagnostics [].

Definition py_strs (l : list str) : PyVal := PList (map PStr l).

(** From [lower] to the reply: the analysis, the [response] dict and
    [return jsonify(response)]. *)
Definition respond (lower : str) : Reply :=
  let diagnostics := diagnostics lower in
  let suggested_fixes := suggested_fixes diagnostics in
  let response :=
    PDict [ (py "status", PStr (py "ok"));
            (py "diagnostics", py_strs diagnostics);
            (py "suggested_fixes", py_strs suggested_fixes);
            (py "note", PStr note) ] in
  mkReply 200 response.

(** The [try] block of [debug_with_ai]. *)
Definition debug_with_ai_try (request : Request) : M Reply :=
  if negb (simple_auth_ok request) then
    ret (mkReply 401
           (PDict [ (py "status", PStr (py "error"));
                    (py "error", PStr (py "unauthorized")) ]))
  else
    request_json <- of_result (json request) ;;
    let payload := py_or request_json (PDict []) in
    build_output <- py_get payload (py "logs") PNone ;;
    build_output <-
      (if negb (truthy build_output)
       then fetched <- get_build_logs ;; ret (PStr fetched)
       else ret build_output) ;;
    lower <- py_lower build_output ;;
    ret (respond lower).

(** The [except Exception as e] clause. *)
Definition error_reply (h : Handler) (e : Exception) : M Reply :=
  trace <- traceback_format_exc h e ;;
  ret (mkReply 500
         (PDict [ (py "status", PStr (py "error"));
                  (py "error", PStr (exc_str e));
                  (py "trace", PStr trace) ])).

(** [POST /debug] *)
Definition debug_with_ai (request : Request) : M Reply :=
  try_except (debug_with_ai_try request) (error_reply in_debug_with_ai).

End Program.

(** [a and b]. *)
Definition py_and (a b : PyVal) : PyVal := if truthy a then b else a.

Section OtherRoutes.

Variable cfg : Config.

(** [GET /logs] *)
Definition fetch_logs (request : Request) : M Reply :=
  try_except
    (if negb (simple_auth_ok cfg request) then
       ret (mkReply 401
              (PDict [ (py "status", PStr (py "error"));
                       (py "error", PStr (py "unauthorized")) ]))
     else
       logs <- get_build_logs cfg ;;
       ret (mkReply 200
              (PDict [ (py "status", PStr (py "ok"));
                       (py "logs", PStr logs) ])))
    (error_reply in_fetch_logs).

(** [GET /health] *)
Definition health : M Reply :=
  ret (mkReply 200
         (PDict [ (py "status", PStr (py "ok"));
                  (py "service", PStr (py "render-mcp-debug-agent")) ])).

(** [GET /ready] *)
Definition ready : M Reply :=
  try_except
    (ret (mkReply 200
            (PDict [ (py "ready",
                      PBool (truthy (py_and (PStr (RENDER_API_TOKEN cfg))
                                            (PStr (RENDER_SERVICE_ID cfg))))) ])))
    (fun _ => ret (mkReply 200 (PDict [ (py "ready", PBool false) ]))).

End OtherRoutes.


(* ================================================================== *)
(** * The rule table of the specification *)
(* ================================================================== *)

(** The five rules as the specification lists them, in its order: a
    predicate on the lower-cased text and the message of the rule.  The
    program is compared with this table below. *)
Definition spec_rules : list ((str -> bool) * str) :=
  [ (fun l => str_in (py "module not founderror") l
              || str_in (py "modulenotfounderror") l, msg_module);
    (fun l => str_in (py "syntaxerror") l, msg_syntax);
    (fun l => str_in (py "pip install") l
              && (str_in (py "failed") l || str_in (py "error") l), msg_pip);
    (fun l => str_in (py "permission denied") l, msg_permission);
    (fun l => str_in (py "out of memory") l || str_in (py "oom") l,
     msg_memory) ].

(** The messages of the rules that hold on [l], in the order of the
    table. *)
Definition matched (l : str) : list str :=
  map snd (filter (fun r => fst r l) spec_rules).

(** The key the guard reads from a request: the [X-API-KEY] header, the
    empty string when there is none. *)
Definition supplied_key (req : Request) : str :=
  headers_get (headers req) (py "X-API-KEY") [].

(** The allow-list of the specification: the comma-split, individually
    trimmed entries of [ALLOWED_KEYS]. *)
Definition spec_allow_list (cfg : Config) : list str :=
  map strip (split comma (ALLOWED_KEYS cfg)).

(** Configurations and requests used as examples. *)
Definition cfg_keys (keys : string) : Config := mkConfig [] [] (py keys).

Definition req_with_key (key : string) : Request :=
  mkRequest [ (py "X-API-KEY", py key) ] (inr PNone).

Definition req_without_key : Request := mkRequest [] (inr PNone).

(** [s] contains the word [p] in some letter case: the ASCII capitals
    folded to small letters, [p] occurs in [s]. *)
Definition contains_any_case (p s : str) : bool :=
  str_in (map ascii_lower p) (map ascii_lower s).

(** What the specification says of a [/debug] request that brings no
    logs: the log fetcher is called and the fetched text is diagnosed,
    under the handler's [except] clause. *)
Definition fetch_and_diagnose (cfg : Config) : M Reply :=
  try_except
    (fetched <- get_build_logs cfg ;; ret (respond (lower fetched)))
    (error_reply in_debug_with_ai).

(** An upstream that answers every request with the same log, and a
    configuration with both required values set. *)
Definition handler_name (h : Handler) : str :=
  match h with
  | in_fetch_logs => py "fetch_logs"
  | in_debug_with_ai => py "debug_with_ai"
  end.

Definition trace_text (h : Handler) (e : Exception) : str :=
  py "Traceback (most recent call last), in " ++ handler_name h ++ py ": "
  ++ exc_str e.

Definition env_answering (log : string) : Env :=
  mkEnv (fun rq => inr (mkHttpResponse 200 (py "OK") (req_url rq) (py log)))
        trace_text.

Definition cfg_render : Config := mkConfig (py "tok") (py "srv-1") [].

(** The six diagnostics and the fix the mapper's chain gives each. *)
Definition fix_table : list (str * str) :=
  [ (msg_module, fix_package);
    (msg_syntax, fix_syntax);
    (msg_pip, fix_pip);
    (msg_permission, fix_generic);
    (msg_memory, fix_memory);
    (msg_fallback, fix_generic) ].

(** The request [get_build_logs] sends upstream. *)
Definition logs_request (cfg : Config) : HttpRequest :=
  mkHttpRequest
    (py "https://api.render.com/v1/services/" ++ RENDER_SERVICE_ID cfg
     ++ py "/logs")
    [ (py "Authorization", py "Bearer " ++ RENDER_API_TOKEN cfg);
      (py "Accept", py "application/json") ]
    30.

(** The reply of the [except] clause of the handler [h] for the
    exception [e]. *)
Definition reply_500 (env : Env) (h : Handler) (e : Exception) : Reply :=
  mkReply 500
    (PDict [ (py "status", PStr (py "error"));
             (py "error", PStr (exc_str e));
             (py "trace", PStr (format_exc env h e)) ]).

Definition reply_401 : Reply :=
  mkReply 401
    (PDict [ (py "status", PStr (py "error"));
             (py "error", PStr (py "unauthorized")) ]).

(** An upstream that answers every request with a given status, and
    one that fails to connect. *)
Definition env_status (code : Z) (log : string) : Env :=
  mkEnv (fun rq => inr (mkHttpResponse code (py "R") (req_url rq) (py log)))
        trace_text.

Definition env_down : Env :=
  mkEnv (fun _ => inl (mkExc RequestException (py "connection refused")))
        trace_text.

(** A boolean test that the strings of a list are pairwise different. *)
Fixpoint distinctb (l : list str) : bool :=
  match l with
  | [] => true
  | x :: l' => negb (list_in x l') && distinctb l'
  end.

(** The request of the end-to-end example. *)
Definition permission_log : str :=
  py "Error: permission denied while writing file".

Definition permission_request (hs : list (str * str)) : Request :=
  mkRequest hs (inr (PDict [ (py "logs", PStr permission_log) ])).




(** The request has a JSON body and no logs to diagnose in it: the body
    is an object whose [logs] is missing or falsy, or the body is itself
    a falsy value ([null], [false], [0], an empty string, list or
    object), for which the handler takes the empty object. *)
Definition brings_no_logs (req : Request) : bool :=
  match json req with
  | inl _ => false
  | inr (PDict d) =>
      match assoc (py "logs") d with
      | Some v => negb (truthy v)
      | None => true
      end
  | inr v => negb (truthy v)
  end.

(* ================================================================== *)
(** * Strings: the operations meet their descriptions *)
(* ================================================================== *)

Lemma str_eqb_eq (a b : str) : str_eqb a b = true <-> a = b.
Proof.
  unfold str_eqb. destruct (list_eq_dec Z.eq_dec a b); split; congruence.
Qed.

Lemma list_in_In (x : str) (l : list str) : list_in x l = true <-> In x l.
Proof.
  unfold list_in. rewrite existsb_exists. split.
  - intros [y [Hy E]]. apply str_eqb_eq in E. now subst.
  - intros H. exists x. split; [assumption | now apply str_eqb_eq].
Qed.

Lemma nonempty_true (s : str) : nonempty s = true <-> s <> [].
Proof. destruct s; simpl; split; congruence. Qed.

Lemma nonempty_false (s : str) : nonempty s = false <-> s = [].
Proof. destruct s; simpl; split; congruence. Qed.

Lemma starts_with_prefix (p s : str) :
  starts_with p s = true <-> exists t, s = p ++ t.
Proof.
  revert s. induction p as [|a p IH]; intros s; simpl.
  - split; [intros _; now exists s | reflexivity].
  - destruct s as [|b s].
    + split; [discriminate | intros [t Ht]; discriminate].
    + rewrite andb_true_iff, Z.eqb_eq, IH. split.
      * intros [-> [t ->]]. now exists t.
      * intros [t Ht]. injection Ht as -> ->. split; [reflexivity | now exists t].
Qed.

(** [p in s] holds exactly when [s] is some text, then [p], then some
    text. *)
Lemma str_in_substring (p s : str) :
  str_in p s = true <-> exists a b, s = a ++ p ++ b.
Proof.
  induction s as [|c s IH].
  - simpl. rewrite orb_false_r, starts_with_prefix. split.
    + intros [t Ht]. now exists [], t.
    + intros [a [b H]]. destruct a; [now exists b | discriminate].
  - cbn [str_in]. rewrite orb_true_iff, starts_with_prefix, IH. split.
    + intros [[t Ht] | [a [b H]]].
      * now exists [], t.
      * exists (c :: a), b. now rewrite H.
    + intros [a [b H]]. destruct a as [|c' a].
      * left. now exists b.
      * right. injection H as _ H. now exists a, b.
Qed.

Lemma lower_app (a b : str) : lower (a ++ b) = lower a ++ lower b.
Proof. apply flat_map_app. Qed.

(** A word whose letters, capital or small, are those of an ASCII
    pattern lower-cases to the pattern. *)
Lemma lower_case_variant (m p : str) :
  map ascii_lower m = p -> Forall (fun c => c < 128) p -> lower m = p.
Proof.
  intros <-. induction m as [|c m IH]; intros H; [reflexivity|].
  simpl in H. inversion H as [|? ? Hc Hm]; subst.
  cbn [lower flat_map map]. fold (lower m). rewrite (IH Hm).
  unfold lower_cp.
  destruct (Z.eqb_spec c 8490) as [->|_]; [vm_compute in Hc; discriminate|].
  destruct (Z.eqb_spec c 304) as [->|_]; [vm_compute in Hc; discriminate|].
  reflexivity.
Qed.

Lemma split_not_nil (sep : Z) (s : str) : split sep s <> [].
Proof.
  destruct s as [|c s]; simpl; [discriminate|].
  destruct (c =? sep); [discriminate|].
  destruct (split sep s); discriminate.
Qed.

Lemma join_cons (sep : Z) (w : str) (l : list str) :
  l <> [] -> join sep (w :: l) = w ++ sep :: join sep l.
Proof. destruct l; [congruence | reflexivity]. Qed.

(** Joining the pieces with the separator gives the string back. *)
Lemma join_split (sep : Z) (s : str) : join sep (split sep s) = s.
Proof.
  induction s as [|c s IH]; [reflexivity|].
  cbn [split]. pose proof (split_not_nil sep s) as Hn.
  destruct (Z.eqb_spec c sep) as [->|Hc].
  - rewrite join_cons by assumption. now rewrite IH.
  - destruct (split sep s) as [|w ws]; [contradiction|].
    destruct ws as [|w' ws].
    + simpl in IH. now subst.
    + rewrite join_cons by discriminate.
      rewrite join_cons in IH by discriminate.
      now rewrite <- IH.
Qed.

(** No piece contains the separator. *)
Lemma split_no_sep (sep : Z) (s : str) :
  Forall (fun w => ~ In sep w) (split sep s).
Proof.
  induction s as [|c s IH]; cbn [split].
  - constructor; [intros [] | constructor].
  - destruct (Z.eqb_spec c sep) as [->|Hc].
    + constructor; [intros [] | assumption].
    + destruct (split sep s) as [|w ws].
      * constructor; [|constructor]. intros [E|[]]. congruence.
      * inversion IH; subst. constructor; [|assumption].
        intros [E|E]; [congruence | contradiction].
Qed.

Lemma lstrip_head (s : str) :
  match lstrip s with [] => True | c :: _ => isspace c = false end.
Proof.
  induction s as [|c s IH]; simpl; [exact I|].
  destruct (isspace c) eqn:E; [assumption | assumption].
Qed.

Lemma distinctb_NoDup (l : list str) : distinctb l = true -> NoDup l.
Proof.
  induction l as [|x l IH]; simpl; [constructor|].
  rewrite andb_true_iff, negb_true_iff. intros [Hx Hl].
  constructor; [|auto].
  intros Hin. apply list_in_In in Hin. congruence.
Qed.

(** Case analysis on the next boolean test of the goal. *)
Ltac case_test :=
  match goal with
  | |- context [if ?c then _ else _] =>
      match type of c with bool => destruct c end
  end.

(* ================================================================== *)
(** * The access guard *)
(* ================================================================== *)

Module AccessGuard.

(** With [ALLOWED_KEYS] empty the guard is open. *)
Lemma open_when_unset (cfg : Config) (req : Request) :
  ALLOWED_KEYS cfg = [] -> simple_auth_ok cfg req = true.
Proof. intros H. unfold simple_auth_ok. now rewrite H. Qed.

(** The list the guard tests against is the trimmed entries that are
    not empty. *)
Lemma allowed_entries (cfg : Config) (key : str) :
  In key (map strip (filter (fun k => nonempty (strip k))
                       (split comma (ALLOWED_KEYS cfg))))
  <-> key <> [] /\ In key (spec_allow_list cfg).
Proof.
  unfold spec_allow_list. rewrite !in_map_iff. split.
  - intros [k [E Hk]]. apply filter_In in Hk as [Hk Hne].
    apply nonempty_true in Hne. subst key. split; [assumption|].
    now exists k.
  - intros [Hne [k [E Hk]]]. exists k. split; [assumption|].
    apply filter_In. split; [assumption|].
    apply nonempty_true. now rewrite E.
Qed.

(** C1, as amended.  The guard allows a request exactly when
    [ALLOWED_KEYS] is empty, or the supplied key, taken as it was
    received and not trimmed, is a non-empty string equal to one entry
    of the comma-split, individually trimmed allow-list. *)
Theorem simple_auth_ok_iff (cfg : Config) (req : Request) :
  simple_auth_ok cfg req = true
  <-> ALLOWED_KEYS cfg = []
      \/ (supplied_key req <> [] /\ In (supplied_key req) (spec_allow_list cfg)).
Proof.
  unfold simple_auth_ok. fold (supplied_key req).
  destruct (ALLOWED_KEYS cfg) as [|c rest] eqn:E; cbn [nonempty negb].
  - split; [now left | reflexivity].
  - rewrite list_in_In. rewrite <- E. rewrite allowed_entries. split.
    + intros H. now right.
    + intros [H | H]; [rewrite E in H; discriminate | assumption].
Qed.

Lemma simple_auth_ok_iff_witness :
  supplied_key (req_with_key "b") <> []
  /\ In (supplied_key (req_with_key "b")) (spec_allow_list (cfg_keys " a, b "))
  /\ simple_auth_ok (cfg_keys " a, b ") (req_with_key "b") = true.
Proof.
  assert (H : supplied_key (req_with_key "b") <> []
              /\ In (supplied_key (req_with_key "b"))
                   (spec_allow_list (cfg_keys " a, b "))).
  { split; [discriminate|]. vm_compute. right. now left. }
  split; [apply H|]. split; [apply H|].
  apply (simple_auth_ok_iff (cfg_keys " a, b ") (req_with_key "b")).
  right. exact H.
Defined.

(** [ALLOWED_KEYS="a,b"]: the key [a] is let in, the key [c] is not. *)
Example allow_list_a_b :
  simple_auth_ok (cfg_keys "a,b") (req_with_key "a") = true
  /\ simple_auth_ok (cfg_keys "a,b") (req_with_key "c") = false.
Proof. split; reflexivity. Qed.

(** An [ALLOWED_KEYS] of blanks and commas only lets nobody in. *)
Example allow_list_blank :
  simple_auth_ok (cfg_keys " , ") (req_with_key " ") = false
  /\ simple_auth_ok (cfg_keys " , ") req_without_key = false.
Proof. split; reflexivity. Qed.

(** C1, as it is written, fails.  With [ALLOWED_KEYS="a"] the key
    [a] followed by a space is trimmed to an entry of the list, and is
    rejected; with [ALLOWED_KEYS="a,,b"] the empty key is an entry of
    the comma-split, trimmed list, and a request without the header is
    rejected. *)
Lemma simple_auth_ok_trim_counterexample :
  (ALLOWED_KEYS (cfg_keys "a") <> []
   /\ In (strip (supplied_key (req_with_key "a ")))
        (spec_allow_list (cfg_keys "a"))
   /\ simple_auth_ok (cfg_keys "a") (req_with_key "a ") = false)
  /\
  (ALLOWED_KEYS (cfg_keys "a,,b") <> []
   /\ In (strip (supplied_key req_without_key))
        (spec_allow_list (cfg_keys "a,,b"))
   /\ simple_auth_ok (cfg_keys "a,,b") req_without_key = false).
Proof.
  split.
  - split; [discriminate|]. split; [|reflexivity].
    vm_compute. now left.
  - split; [discriminate|]. split; [|reflexivity].
    vm_compute. right. now left.
Qed.

(** C10.  With [ALLOWED_KEYS] non-empty, a request whose [X-API-KEY] is
    absent or empty is rejected, whatever empty or blank entries the
    list has. *)
Theorem empty_key_rejected (cfg : Config) (req : Request) :
  ALLOWED_KEYS cfg <> [] ->
  supplied_key req = [] ->
  simple_auth_ok cfg req = false.
Proof.
  intros Hcfg Hkey. unfold simple_auth_ok. fold (supplied_key req).
  apply nonempty_true in Hcfg. rewrite Hcfg. cbn [negb].
  destruct (list_in _ _) eqn:E; [|reflexivity].
  apply list_in_In, allowed_entries in E as [E _]. contradiction.
Qed.

Lemma empty_key_rejected_witness :
  ALLOWED_KEYS (cfg_keys "a,,b") <> []
  /\ supplied_key req_without_key = []
  /\ simple_auth_ok (cfg_keys "a,,b") req_without_key = false.
Proof.
  split; [discriminate|]. split; [reflexivity|].
  apply (empty_key_rejected (cfg_keys "a,,b") req_without_key).
  - discriminate.
  - reflexivity.
Defined.

(** The key is absent or empty exactly when [supplied_key] is empty:
    no header is named [X-API-KEY], or the first that is has the empty
    value. *)
Lemma supplied_key_empty (hs : list (str * str)) (js : Exception + PyVal) :
  supplied_key (mkRequest hs js) = []
  <-> (forall k v, In (k, v) hs ->
         str_eqb (lower k) (lower (py "X-API-KEY")) = false)
      \/ exists hs1 k hs2,
           hs = hs1 ++ (k, []) :: hs2
           /\ str_eqb (lower k) (lower (py "X-API-KEY")) = true
           /\ forall k' v', In (k', v') hs1 ->
                str_eqb (lower k') (lower (py "X-API-KEY")) = false.
Proof.
  unfold supplied_key. cbn [headers].
  set (name := py "X-API-KEY").
  induction hs as [|[k v] hs IH]; cbn [headers_get].
  - split; [intros _; left; intros ? ? [] | reflexivity].
  - destruct (str_eqb (lower k) (lower name)) eqn:E.
    + split.
      * intros ->. right. exists [], k, hs. repeat split; [assumption|].
        intros ? ? [].
      * intros [H | [hs1 [k1 [hs2 [H1 [H2 H3]]]]]].
        -- rewrite (H k v) in E by now left. discriminate.
        -- destruct hs1 as [|[k0 v0] hs1].
           ++ now injection H1 as _ ->.
           ++ injection H1 as -> -> _.
              rewrite (H3 k0 v0) in E by now left. discriminate.
    + rewrite IH. split.
      * intros [H | [hs1 [k1 [hs2 [H1 [H2 H3]]]]]].
        -- left. intros k' v' [Heq | Hin]; [now injection Heq as <- <- | eauto].
        -- right. exists ((k, v) :: hs1), k1, hs2. subst hs.
           repeat split; [assumption|].
           intros k' v' [Heq | Hin]; [now injection Heq as <- <- | eauto].
      * intros [H | [hs1 [k1 [hs2 [H1 [H2 H3]]]]]].
        -- left. intros k' v' Hin. apply (H k' v'). now right.
        -- destruct hs1 as [|[k0 v0] hs1].
           ++ injection H1 as -> -> ->. congruence.
           ++ injection H1 as -> -> ->. right. exists hs1, k1, hs2.
              repeat split; [assumption|].
              intros k' v' Hin. apply (H3 k' v'). now right.
Qed.

End AccessGuard.

(* ================================================================== *)
(** * The heuristic diagnoser *)
(* ================================================================== *)

Module Diagnoser.

(** The five [if]s compute what the rule table says, in its order. *)
Lemma diagnostics_table (l : str) :
  diagnostics l =
  match matched l with
  | [] => [msg_fallback]
  | _ :: _ => matched l
  end.
Proof.
  unfold diagnostics, matched, spec_rules.
  cbn [filter fst snd].
  repeat case_test; reflexivity.
Qed.

Lemma diagnostics_not_nil (l : str) : diagnostics l <> [].
Proof.
  rewrite diagnostics_table.
  destruct (matched l); discriminate.
Qed.

Lemma matched_In (l : str) (p : str -> bool) (m : str) :
  In (p, m) spec_rules -> p l = true -> In m (matched l).
Proof.
  intros Hin Hp. unfold matched. apply in_map_iff.
  exists (p, m). split; [reflexivity|].
  apply filter_In. split; assumption.
Qed.

Lemma diagnostics_In (l : str) (p : str -> bool) (m : str) :
  In (p, m) spec_rules -> p l = true -> In m (diagnostics l).
Proof.
  intros Hin Hp. rewrite diagnostics_table.
  pose proof (matched_In l p m Hin Hp) as H.
  destruct (matched l); [contradiction | assumption].
Qed.

Lemma messages_distinct :
  distinctb [msg_module; msg_syntax; msg_pip; msg_permission; msg_memory;
             msg_fallback] = true.
Proof. vm_compute. reflexivity. Qed.

Lemma diagnostics_NoDup (l : str) : NoDup (diagnostics l).
Proof.
  unfold diagnostics.
  repeat case_test;
    cbn [app]; apply distinctb_NoDup; vm_compute; reflexivity.
Qed.

(** C5.  On every log text all five rules are evaluated: the message of
    each rule that holds on the lower-cased text is in the output; the
    output is the messages of the rules that hold in the order of the
    table (the fallback alone when none holds), so several rules give
    several diagnostics; and no message occurs twice. *)
Theorem all_rules_evaluated (build_output : str) :
  (forall p m, In (p, m) spec_rules -> p (lower build_output) = true ->
     In m (diagnostics (lower build_output)))
  /\ diagnostics (lower build_output) =
     match matched (lower build_output) with
     | [] => [msg_fallback]
     | _ :: _ => map snd (filter (fun r => fst r (lower build_output))
                            spec_rules)
     end
  /\ NoDup (diagnostics (lower build_output)).
Proof.
  split; [|split].
  - intros p m. apply diagnostics_In.
  - apply diagnostics_table.
  - apply diagnostics_NoDup.
Qed.

Lemma all_rules_evaluated_witness :
  diagnostics
    (lower (py "ModuleNotFoundError: x; pip install failed; OOM killed"))
  = [msg_module; msg_pip; msg_memory]
  /\ NoDup (diagnostics
       (lower (py "ModuleNotFoundError: x; pip install failed; OOM killed"))).
Proof.
  destruct (all_rules_evaluated
              (py "ModuleNotFoundError: x; pip install failed; OOM killed"))
    as [_ [Heq Hnd]].
  split; [|exact Hnd].
  rewrite Heq. vm_compute. reflexivity.
Defined.

(** C4.  A log text on whose lower-casing none of the five rules holds
    gets the fallback message and nothing else; and the diagnostics of
    no text are empty. *)
Theorem fallback_alone (build_output : str) :
  ((forall p m, In (p, m) spec_rules -> p (lower build_output) = false) ->
   diagnostics (lower build_output) = [msg_fallback])
  /\ diagnostics (lower build_output) <> [].
Proof.
  split; [|apply diagnostics_not_nil].
  intros Hnone. rewrite diagnostics_table.
  destruct (matched (lower build_output)) as [|m ms] eqn:E; [reflexivity|].
  assert (Hin : In m (matched (lower build_output))) by (rewrite E; now left).
  unfold matched in Hin. apply in_map_iff in Hin as [[p m'] [_ Hin]].
  apply filter_In in Hin as [Hin Hp]. cbn [fst] in Hp.
  rewrite (Hnone p m' Hin) in Hp. discriminate.
Qed.

Lemma fallback_alone_witness :
  (forall p m, In (p, m) spec_rules -> p (lower (py "build ok")) = false)
  /\ diagnostics (lower (py "build ok")) = [msg_fallback]
  /\ diagnostics (lower (py "build ok")) <> [].
Proof.
  assert (H : forall p m, In (p, m) spec_rules ->
                p (lower (py "build ok")) = false).
  { intros p m Hin. unfold spec_rules in Hin. cbn [In] in Hin.
    repeat destruct Hin as [Hin | Hin];
      try (injection Hin as <- _; vm_compute; reflexivity).
    contradiction. }
  split; [exact H|].
  destruct (fallback_alone (py "build ok")) as [H1 H2].
  split; [exact (H1 H) | exact H2].
Defined.

Lemma pattern_ascii :
  Forall (fun c => c < 128) (map ascii_lower (py "ModuleNotFoundError")).
Proof. repeat constructor. Qed.

(** C3.  A log text that contains [ModuleNotFoundError] in any letter
    case has the missing-package message among its diagnostics. *)
Theorem module_not_found_detected (build_output : str) :
  contains_any_case (py "ModuleNotFoundError") build_output = true ->
  In msg_module (diagnostics (lower build_output)).
Proof.
  unfold contains_any_case. intros H.
  apply str_in_substring in H as [a [b H]].
  apply map_eq_app in H as [pre [rest [-> [_ H]]]].
  apply map_eq_app in H as [m [post [-> [Hm _]]]].
  apply (diagnostics_In _
           (fun l => str_in (py "module not founderror") l
                     || str_in (py "modulenotfounderror") l)).
  - now left.
  - apply orb_true_iff. right. apply str_in_substring.
    exists (lower pre), (lower post).
    rewrite !lower_app. do 2 f_equal.
    apply (lower_case_variant _ _ Hm pattern_ascii).
Qed.

Lemma module_not_found_detected_witness :
  contains_any_case (py "ModuleNotFoundError")
    (py "pip install failed: MODULENOTFOUNDERROR: No module named x") = true
  /\ In msg_module
       (diagnostics
          (lower (py "pip install failed: MODULENOTFOUNDERROR: No module named x"))).
Proof.
  split; [vm_compute; reflexivity|].
  apply module_not_found_detected. vm_compute. reflexivity.
Defined.

End Diagnoser.

(* ================================================================== *)
(** * The fix mapper *)
(* ================================================================== *)

Module FixMapper.

Lemma suggested_fixes_from (ds acc : list str) :
  fold_left (fun suggested_fixes d => suggested_fixes ++ [fix_for d]) ds acc
  = acc ++ map fix_for ds.
Proof.
  revert acc. induction ds as [|d ds IH]; intros acc; cbn [fold_left map].
  - now rewrite app_nil_r.
  - rewrite IH, <- app_assoc. reflexivity.
Qed.

(** The loop appends one fix per diagnostic: it is [fix_for] mapped over
    the list. *)
Lemma suggested_fixes_map (ds : list str) :
  suggested_fixes ds = map fix_for ds.
Proof. unfold suggested_fixes. apply suggested_fixes_from. Qed.

(** C2.  For every log text the reply of the analysis carries a list of
    diagnostics and a list of suggested fixes of the same length, the
    fix at each position being the one computed from the diagnostic at
    that position alone. *)
Theorem fixes_parallel (build_output : str) :
  exists ds fs : list str,
    body (respond (lower build_output)) =
      PDict [ (py "status", PStr (py "ok"));
              (py "diagnostics", py_strs ds);
              (py "suggested_fixes", py_strs fs);
              (py "note", PStr note) ]
    /\ ds = diagnostics (lower build_output)
    /\ List.length fs = List.length ds
    /\ fs = map fix_for ds
    /\ forall i, nth_error fs i = option_map fix_for (nth_error ds i).
Proof.
  exists (diagnostics (lower build_output)),
         (suggested_fixes (diagnostics (lower build_output))).
  split.
  { reflexivity. }
  rewrite suggested_fixes_map.
  split; [reflexivity|]. split; [apply length_map|].
  split; [reflexivity|]. intros i. apply nth_error_map.
Qed.

(** C6, as it is written, fails: the phrase does occur in the
    lower-cased missing-package diagnostic. *)
Lemma phrase_occurs_counterexample :
  ~ (str_in (py "missing python package") (lower msg_module) = false).
Proof. vm_compute. discriminate. Qed.

(** C6, as amended.  The fix mapper's check for the phrase
    [missing python package] matches the lower-cased missing-package
    diagnostic of rule 1 (as does its check for [modulenotfounderror]),
    and the diagnostic is mapped to the package fix. *)
Theorem phrase_matches_module_diagnostic :
  str_in (py "missing python package") (lower msg_module) = true
  /\ str_in (py "modulenotfounderror") (lower msg_module) = true
  /\ fix_for msg_module = fix_package.
Proof. repeat split; vm_compute; reflexivity. Qed.

(** What the mapper gives for each of the six diagnostics. *)
Lemma fix_for_messages :
  map fix_for [msg_module; msg_syntax; msg_pip; msg_permission; msg_memory;
               msg_fallback]
  = [fix_package; fix_syntax; fix_pip; fix_generic; fix_memory; fix_generic].
Proof. vm_compute. reflexivity. Qed.

End FixMapper.

(* ================================================================== *)
(** * The log fetcher and the [/debug] route *)
(* ================================================================== *)

Module Routes.

(** C7.  When [RENDER_API_TOKEN] or [RENDER_SERVICE_ID] is empty,
    [get_build_logs] raises the configuration error and the list of the
    requests sent upstream is what it was: nothing is sent. *)
Theorem get_build_logs_unconfigured
    (cfg : Config) (env : Env) (sent : list HttpRequest) :
  RENDER_API_TOKEN cfg = [] \/ RENDER_SERVICE_ID cfg = [] ->
  get_build_logs cfg env sent
  = (inl (mkExc RuntimeError config_error_message), sent).
Proof.
  intros H. unfold get_build_logs.
  destruct H as [H | H]; rewrite H; cbn [nonempty negb orb].
  - reflexivity.
  - rewrite orb_true_r. reflexivity.
Qed.

Lemma get_build_logs_unconfigured_witness :
  (RENDER_API_TOKEN (mkConfig (py "tok") [] []) = []
   \/ RENDER_SERVICE_ID (mkConfig (py "tok") [] []) = [])
  /\ get_build_logs (mkConfig (py "tok") [] [])
       (mkEnv (fun _ => inr (mkHttpResponse 200 (py "OK") [] (py "log")))
              (fun _ _ => []))
       []
     = (inl (mkExc RuntimeError config_error_message), []).
Proof.
  split; [right; reflexivity|].
  apply get_build_logs_unconfigured. right. reflexivity.
Defined.

(** With both values set, exactly one request goes upstream: a GET of
    the service's logs with the bearer token and a 30 second time-out. *)
Lemma get_build_logs_configured
    (cfg : Config) (env : Env) (sent : list HttpRequest) :
  RENDER_API_TOKEN cfg <> [] -> RENDER_SERVICE_ID cfg <> [] ->
  snd (get_build_logs cfg env sent)
  = sent ++
    [ mkHttpRequest
        (py "https://api.render.com/v1/services/" ++ RENDER_SERVICE_ID cfg
         ++ py "/logs")
        [ (py "Authorization", py "Bearer " ++ RENDER_API_TOKEN cfg);
          (py "Accept", py "application/json") ]
        30 ].
Proof.
  intros Ht Hs. unfold get_build_logs.
  apply nonempty_true in Ht, Hs. rewrite Ht, Hs. cbn [negb orb].
  unfold bind, requests_get.
  destruct (upstream env _) as [e | r]; [reflexivity|].
  unfold raise_for_status. repeat case_test; reflexivity.
Qed.

(** A request that is let in and supplies a non-empty string as [logs]
    is answered from that string; nothing is sent upstream. *)
Lemma debug_supplied_logs
    (cfg : Config) (req : Request) (env : Env) (sent : list HttpRequest)
    (d : list (str * PyVal)) (logs : str) :
  simple_auth_ok cfg req = true ->
  json req = inr (PDict d) ->
  assoc (py "logs") d = Some (PStr logs) ->
  logs <> [] ->
  debug_with_ai cfg req env sent = (inr (respond (lower logs)), sent).
Proof.
  intros Hauth Hjson Hlogs Hne.
  unfold debug_with_ai, try_except, debug_with_ai_try.
  rewrite Hauth, Hjson. cbn [negb].
  destruct d as [|kv d]; [discriminate|].
  unfold bind, of_result, py_or. cbn [truthy].
  unfold py_get. rewrite Hlogs. unfold ret at 1.
  apply nonempty_true in Hne. cbn [truthy]. rewrite Hne. cbn [negb].
  reflexivity.
Qed.

Lemma debug_no_logs
    (cfg : Config) (req : Request) (env : Env) (sent : list HttpRequest)
    (payload : PyVal) (v : PyVal) :
  simple_auth_ok cfg req = true ->
  json req = inr payload ->
  py_get (py_or payload (PDict [])) (py "logs") PNone env sent
    = (inr v, sent) ->
  truthy v = false ->
  debug_with_ai cfg req env sent = fetch_and_diagnose cfg env sent.
Proof.
  intros Hauth Hjson Hget Hv.
  unfold debug_with_ai, fetch_and_diagnose, try_except, debug_with_ai_try.
  rewrite Hauth, Hjson. cbn [negb].
  unfold bind at 1. unfold of_result at 1.
  unfold bind at 1. rewrite Hget.
  unfold bind at 1. rewrite Hv. cbn [negb].
  unfold bind.
  destruct (get_build_logs cfg env sent) as [[e | fetched] sent'];
    reflexivity.
Qed.

Lemma respond_permission_log :
  respond (lower permission_log) =
  mkReply 200
    (PDict [ (py "status", PStr (py "ok"));
             (py "diagnostics", py_strs [msg_permission]);
             (py "suggested_fixes", py_strs [fix_generic]);
             (py "note", PStr note) ]).
Proof. vm_compute. reflexivity. Qed.

(** C8.  With [ALLOWED_KEYS] empty, [POST /debug] with the body
    [{"logs": "Error: permission denied while writing file"}] replies
    200 with status [ok], the permission-denied message as the one
    diagnostic and the fix computed for it at the same position; the
    requests sent upstream are what they were: none is made. *)
Theorem debug_permission_denied
    (cfg : Config) (hs : list (str * str)) (env : Env)
    (sent : list HttpRequest) :
  ALLOWED_KEYS cfg = [] ->
  debug_with_ai cfg (permission_request hs) env sent =
  (inr (mkReply 200
          (PDict [ (py "status", PStr (py "ok"));
                   (py "diagnostics", py_strs [msg_permission]);
                   (py "suggested_fixes", py_strs [fix_for msg_permission]);
                   (py "note", PStr note) ])),
   sent).
Proof.
  intros Hopen.
  rewrite (debug_supplied_logs cfg (permission_request hs) env sent
             [ (py "logs", PStr permission_log) ] permission_log).
  - rewrite respond_permission_log.
    replace (fix_for msg_permission) with fix_generic
      by (vm_compute; reflexivity).
    reflexivity.
  - now apply AccessGuard.open_when_unset.
  - reflexivity.
  - vm_compute. reflexivity.
  - discriminate.
Qed.

Lemma debug_permission_denied_witness :
  ALLOWED_KEYS cfg_render = []
  /\ debug_with_ai cfg_render (permission_request [])
       (env_answering "never asked") [] =
     (inr (mkReply 200
             (PDict [ (py "status", PStr (py "ok"));
                      (py "diagnostics", py_strs [msg_permission]);
                      (py "suggested_fixes", py_strs [fix_for msg_permission]);
                      (py "note", PStr note) ])),
      []).
Proof.
  split; [reflexivity|].
  apply debug_permission_denied. reflexivity.
Defined.


Lemma debug_unauthorized
    (cfg : Config) (req : Request) (env : Env) (sent : list HttpRequest) :
  simple_auth_ok cfg req = false ->
  debug_with_ai cfg req env sent =
  (inr (mkReply 401
          (PDict [ (py "status", PStr (py "error"));
                   (py "error", PStr (py "unauthorized")) ])),
   sent).
Proof.
  intros H. unfold debug_with_ai, try_except, debug_with_ai_try.
  rewrite H. reflexivity.
Qed.

(** A request that is let in and brings no logs makes the handler
    fetch. *)
Lemma debug_brings_no_logs
    (cfg : Config) (req : Request) (env : Env) (sent : list HttpRequest) :
  simple_auth_ok cfg req = true ->
  brings_no_logs req = true ->
  debug_with_ai cfg req env sent = fetch_and_diagnose cfg env sent.
Proof.
  intros Hauth Hno. unfold brings_no_logs in Hno.
  destruct (json req) as [e | payload] eqn:Hjson; [discriminate|].
  assert (H : exists v,
             py_get (py_or payload (PDict [])) (py "logs") PNone env sent
             = (inr v, sent) /\ truthy v = false).
  { unfold py_or.
    destruct payload as [ | b | n | x | s | l | d ];
      try (apply negb_true_iff in Hno; rewrite Hno;
           exists PNone; split; reflexivity).
    destruct d as [|kv d]; [exists PNone; split; reflexivity|].
    cbn [truthy]. unfold py_get, ret.
    destruct (assoc (py "logs") (kv :: d)) as [v|].
    - exists v. split; [reflexivity | now apply negb_true_iff].
    - exists PNone. split; reflexivity. }
  destruct H as [v [Hget Hv]].
  exact (debug_no_logs cfg req env sent payload v Hauth Hjson Hget Hv).
Qed.




(** The run of that request: one GET goes upstream and the fetched text
    is diagnosed. *)
Example falsy_logs_run :
  debug_with_ai cfg_render
    (mkRequest [] (inr (PDict [ (py "logs", PStr []) ])))
    (env_answering "SyntaxError: invalid syntax") []
  = (inr (mkReply 200
            (PDict [ (py "status", PStr (py "ok"));
                     (py "diagnostics", py_strs [msg_syntax]);
                     (py "suggested_fixes", py_strs [fix_syntax]);
                     (py "note", PStr note) ])),
     [ mkHttpRequest (py "https://api.render.com/v1/services/srv-1/logs")
         [ (py "Authorization", py "Bearer tok");
           (py "Accept", py "application/json") ]
         30 ]).
Proof. vm_compute. reflexivity. Qed.

(** A truthy [logs] that is not a string has no [lower]: the [except]
    clause answers 500, and nothing is sent upstream. *)
Example number_logs_run :
  debug_with_ai cfg_render
    (mkRequest [] (inr (PDict [ (py "logs", PInt 5) ])))
    (env_answering "unused") []
  = (inr (mkReply 500
            (PDict [ (py "status", PStr (py "error"));
                     (py "error",
                      PStr (py "'int' object has no attribute 'lower'"));
                     (py "trace",
                      PStr (trace_text in_debug_with_ai
                              (mkExc AttributeError
                                 (py "'int' object has no attribute 'lower'")))) ])),
     []).
Proof. vm_compute. reflexivity. Qed.

End Routes.

(* ================================================================== *)
(** * More on trimming and splitting *)
(* ================================================================== *)

Lemma lstrip_suffix (s : str) : exists a, s = a ++ lstrip s.
Proof.
  induction s as [|c s [a IH]]; [now exists []|].
  cbn [lstrip]. destruct (isspace c).
  - exists (c :: a). cbn [app]. now rewrite <- IH.
  - now exists [].
Qed.

Lemma In_lstrip (c : Z) (s : str) : In c (lstrip s) -> In c s.
Proof.
  destruct (lstrip_suffix s) as [a E]. intros H.
  rewrite E. apply in_or_app. now right.
Qed.

Lemma In_strip (c : Z) (s : str) : In c (strip s) -> In c s.
Proof.
  unfold strip, rstrip. intros H.
  apply In_lstrip. apply in_rev. apply In_lstrip. now apply in_rev.
Qed.

(** A trimmed string does not end with white space... *)
Lemma strip_last (s k : str) (c : Z) :
  strip s = k ++ [c] -> isspace c = false.
Proof.
  unfold strip, rstrip. intros H.
  apply (f_equal (@rev Z)) in H.
  rewrite rev_involutive, rev_app_distr in H. cbn [rev app] in H.
  pose proof (lstrip_head (rev (lstrip s))) as Hh.
  now rewrite H in Hh.
Qed.

(** ... and does not begin with white space. *)
Lemma strip_first (s k : str) (c : Z) :
  strip s = c :: k -> isspace c = false.
Proof.
  unfold strip, rstrip. intros H.
  apply (f_equal (@rev Z)) in H.
  rewrite rev_involutive in H. cbn [rev] in H.
  destruct (lstrip_suffix (rev (lstrip s))) as [a E].
  rewrite H in E. apply (f_equal (@rev Z)) in E.
  rewrite rev_involutive, !rev_app_distr, rev_involutive in E.
  cbn [rev app] in E.
  pose proof (lstrip_head s) as Hh.
  now rewrite E in Hh.
Qed.

Lemma split_no_sep_word (sep : Z) (w : str) :
  ~ In sep w -> split sep w = [w].
Proof.
  induction w as [|c w IH]; intros H; [reflexivity|].
  cbn [split]. destruct (Z.eqb_spec c sep) as [->|_].
  - exfalso. apply H. now left.
  - rewrite IH; [reflexivity|]. intros Hin. apply H. now right.
Qed.

Lemma split_app_sep (sep : Z) (w rest : str) :
  ~ In sep w -> split sep (w ++ sep :: rest) = w :: split sep rest.
Proof.
  induction w as [|c w IH]; intros H; cbn [app split].
  - now rewrite Z.eqb_refl.
  - destruct (Z.eqb_spec c sep) as [->|_].
    + exfalso. apply H. now left.
    + rewrite IH; [reflexivity|]. intros Hin. apply H. now right.
Qed.

(** Splitting what was joined gives the pieces back, when no piece
    contains the separator. *)
Lemma split_join (sep : Z) (l : list str) :
  l <> [] -> Forall (fun w => ~ In sep w) l -> split sep (join sep l) = l.
Proof.
  induction l as [|w l IH]; intros Hne Hall; [congruence|].
  inversion Hall as [|? ? Hw Hl]; subst.
  destruct l as [|w' l].
  - cbn [join]. now apply split_no_sep_word.
  - rewrite join_cons by discriminate.
    rewrite split_app_sep by assumption.
    rewrite IH; [reflexivity | discriminate | assumption].
Qed.

Lemma str_in_extend (p s pre post : str) :
  str_in p s = true -> str_in p (pre ++ s ++ post) = true.
Proof.
  intros H. apply str_in_substring in H as [a [b ->]].
  apply str_in_substring. exists (pre ++ a), (b ++ post).
  now rewrite <- !app_assoc.
Qed.

Lemma Forall2_map_r {A B} (R : A -> B -> Prop) (f : A -> B) (l : list A) :
  (forall x, In x l -> R x (f x)) -> Forall2 R l (map f l).
Proof.
  induction l as [|x l IH]; intros H; cbn [map]; constructor.
  - apply H. now left.
  - apply IH. intros y Hy. apply H. now right.
Qed.

(* ================================================================== *)
(** * The access guard: which keys can be let in *)
(* ================================================================== *)

Module GuardFacts.

(** With the guard on, a key is let in exactly when it is the trimmed
    text, not empty, of a piece of [ALLOWED_KEYS] between commas. *)
Lemma guard_on (cfg : Config) (req : Request) :
  ALLOWED_KEYS cfg <> [] ->
  (simple_auth_ok cfg req = true
   <-> exists e, In e (split comma (ALLOWED_KEYS cfg))
                 /\ strip e = supplied_key req
                 /\ supplied_key req <> []).
Proof.
  intros Hon. unfold simple_auth_ok. fold (supplied_key req).
  apply nonempty_true in Hon. rewrite Hon. cbn [negb].
  rewrite list_in_In, in_map_iff. split.
  - intros [e [E Hin]]. apply filter_In in Hin as [Hin Hne].
    exists e. repeat split; [assumption | assumption|].
    rewrite <- E. now apply nonempty_true.
  - intros [e [Hin [E Hne]]]. exists e. split; [assumption|].
    apply filter_In. split; [assumption|].
    apply nonempty_true. now rewrite E.
Qed.

(** X1.  With [ALLOWED_KEYS] non-empty, a key that begins or ends with white
    space, or contains a comma, is rejected whatever the list is. *)
Theorem unlistable_key_rejected (cfg : Config) (req : Request) :
  ALLOWED_KEYS cfg <> [] ->
  (exists c k, supplied_key req = c :: k /\ isspace c = true)
  \/ (exists k c, supplied_key req = k ++ [c] /\ isspace c = true)
  \/ In comma (supplied_key req) ->
  simple_auth_ok cfg req = false.
Proof.
  intros Hon Hkey.
  destruct (simple_auth_ok cfg req) eqn:Hauth; [exfalso | reflexivity].
  apply (guard_on cfg req Hon) in Hauth as [e [Hin [E _]]].
  destruct Hkey as [[c [k [Hk Hc]]] | [[k [c [Hk Hc]]] | Hcomma]].
  - rewrite Hk in E. apply strip_first in E. congruence.
  - rewrite Hk in E. apply strip_last in E. congruence.
  - rewrite <- E in Hcomma. apply In_strip in Hcomma.
    pose proof (split_no_sep comma (ALLOWED_KEYS cfg)) as Hall.
    rewrite Forall_forall in Hall. exact (Hall e Hin Hcomma).
Qed.

Lemma unlistable_key_rejected_witness :
  ALLOWED_KEYS (cfg_keys " a , b") <> []
  /\ ((exists c k, supplied_key (req_with_key " a ") = c :: k
                   /\ isspace c = true)
      \/ (exists k c, supplied_key (req_with_key " a ") = k ++ [c]
                      /\ isspace c = true)
      \/ In comma (supplied_key (req_with_key " a ")))
  /\ simple_auth_ok (cfg_keys " a , b") (req_with_key " a ") = false.
Proof.
  assert (H : exists c k, supplied_key (req_with_key " a ") = c :: k
                          /\ isspace c = true).
  { exists 32, (py "a "). split; reflexivity. }
  split; [discriminate|]. split; [now left|].
  apply unlistable_key_rejected; [discriminate | now left].
Defined.

(** X2.  When [ALLOWED_KEYS] is entries joined by commas, each entry free of
    commas and padded with white space or not, the trimmed text of any
    entry that is not blank is a key that is let in. *)
Theorem listed_key_accepted
    (cfg : Config) (req : Request) (entries : list str) (e : str) :
  ALLOWED_KEYS cfg = join comma entries ->
  Forall (fun w => ~ In comma w) entries ->
  In e entries ->
  strip e <> [] ->
  supplied_key req = strip e ->
  simple_auth_ok cfg req = true.
Proof.
  intros Hjoin Hall Hin Hne Hkey.
  destruct (ALLOWED_KEYS cfg) as [|c rest] eqn:E.
  - apply AccessGuard.open_when_unset. assumption.
  - apply guard_on; [rewrite E; discriminate|].
    exists e. rewrite E, Hjoin, split_join.
    + repeat split; [assumption | now symmetry | now rewrite Hkey].
    + intros ->. contradiction.
    + assumption.
Qed.

Lemma listed_key_accepted_witness :
  ALLOWED_KEYS (cfg_keys "a , key two ,,b") =
    join comma [py "a "; py " key two "; []; py "b"]
  /\ Forall (fun w => ~ In comma w) [py "a "; py " key two "; []; py "b"]
  /\ In (py " key two ") [py "a "; py " key two "; []; py "b"]
  /\ strip (py " key two ") <> []
  /\ supplied_key (req_with_key "key two") = strip (py " key two ")
  /\ simple_auth_ok (cfg_keys "a , key two ,,b") (req_with_key "key two")
     = true.
Proof.
  assert (Hall : Forall (fun w => ~ In comma w)
                   [py "a "; py " key two "; []; py "b"]).
  { repeat constructor; intros H; vm_compute in H; intuition discriminate. }
  split; [reflexivity|]. split; [exact Hall|].
  split; [right; now left|]. split; [discriminate|].
  split; [reflexivity|].
  apply (listed_key_accepted (cfg_keys "a , key two ,,b")
           (req_with_key "key two")
           [py "a "; py " key two "; []; py "b"] (py " key two ")).
  - reflexivity.
  - exact Hall.
  - right. now left.
  - discriminate.
  - reflexivity.
Defined.

End GuardFacts.

(* ================================================================== *)
(** * The diagnoser and the fix mapper together *)
(* ================================================================== *)

Module AnalysisFacts.

(** A diagnostic is the fallback or the message of a rule that holds. *)
Lemma diagnostics_In_inv (l m : str) :
  In m (diagnostics l) ->
  (m = msg_fallback /\ matched l = [])
  \/ exists p, In (p, m) spec_rules /\ p l = true.
Proof.
  rewrite Diagnoser.diagnostics_table. intros H.
  destruct (matched l) as [|m0 ms] eqn:E.
  - left. destruct H as [<- | []]. now split.
  - right. rewrite <- E in H. unfold matched in H.
    apply in_map_iff in H as [[p m'] [Hm H]]. cbn [snd] in Hm. subst m'.
    apply filter_In in H as [Hin Hp]. now exists p.
Qed.

Lemma fallback_not_a_rule (p : str -> bool) :
  ~ In (p, msg_fallback) spec_rules.
Proof.
  intros H. apply (in_map snd) in H. cbn [snd] in H.
  apply list_in_In in H. vm_compute in H. discriminate.
Qed.

(** X3.  The number of diagnostics is between one and five, and the
    fallback message is among them exactly when no rule holds, in which
    case it is alone. *)
Theorem diagnostics_bounds (build_output : str) :
  (1 <= List.length (diagnostics (lower build_output)) <= 5)%nat
  /\ (In msg_fallback (diagnostics (lower build_output))
      <-> matched (lower build_output) = [])
  /\ (In msg_fallback (diagnostics (lower build_output))
      -> diagnostics (lower build_output) = [msg_fallback]).
Proof.
  set (l := lower build_output).
  assert (Hfb : In msg_fallback (diagnostics l) -> matched l = []).
  { intros H. apply diagnostics_In_inv in H as [[_ H] | [p [Hin _]]].
    - assumption.
    - now apply fallback_not_a_rule in Hin. }
  split; [|split].
  - unfold diagnostics. repeat case_test; cbn [app List.length]; lia.
  - split; [exact Hfb|].
    intros E. rewrite Diagnoser.diagnostics_table, E. now left.
  - intros H. rewrite Diagnoser.diagnostics_table, (Hfb H). reflexivity.
Qed.

Lemma diagnostics_bounds_witness :
  In msg_fallback (diagnostics (lower (py "all good")))
  /\ diagnostics (lower (py "all good")) = [msg_fallback].
Proof.
  assert (H : In msg_fallback (diagnostics (lower (py "all good")))).
  { vm_compute. now left. }
  split; [exact H|].
  destruct (diagnostics_bounds (py "all good")) as [_ [_ Himp]].
  exact (Himp H).
Defined.

Lemma rule_extend (p : str -> bool) (m l pre post : str) :
  In (p, m) spec_rules -> p l = true -> p (pre ++ l ++ post) = true.
Proof.
  unfold spec_rules. cbn [In].
  intros H Hp.
  repeat destruct H as [H | H]; try contradiction;
    injection H as <- _;
    repeat match goal with
      | H : _ || _ = true |- _ => apply orb_true_iff in H as [H | H]
      | H : _ && _ = true |- _ => apply andb_true_iff in H as [? H]
      end;
    repeat match goal with
      | H : str_in ?q l = true |- _ =>
          apply (str_in_extend q l pre post) in H; rewrite H; clear H
      end;
    rewrite ?orb_true_r; reflexivity.
Qed.

(** X4.  More log text around a log never removes the message of a rule:
    a diagnostic of a text, other than the fallback, is a diagnostic of
    every text that contains it. *)
Theorem diagnostics_monotone (build_output before after m : str) :
  In m (diagnostics (lower build_output)) ->
  m <> msg_fallback ->
  In m (diagnostics (lower (before ++ build_output ++ after))).
Proof.
  intros Hin Hm.
  apply diagnostics_In_inv in Hin as [[E _] | [p [Hrule Hp]]];
    [contradiction|].
  apply (Diagnoser.diagnostics_In _ p m Hrule).
  rewrite !lower_app. now apply (rule_extend p m).
Qed.

Lemma diagnostics_monotone_witness :
  In msg_syntax (diagnostics (lower (py "SyntaxError: bad")))
  /\ msg_syntax <> msg_fallback
  /\ In msg_syntax
       (diagnostics
          (lower (py "step 3: " ++ py "SyntaxError: bad" ++ py "; oom"))).
Proof.
  assert (H1 : In msg_syntax (diagnostics (lower (py "SyntaxError: bad")))).
  { vm_compute. now left. }
  assert (H2 : msg_syntax <> msg_fallback).
  { intros E. apply str_eqb_eq in E. vm_compute in E. discriminate. }
  split; [exact H1|]. split; [exact H2|].
  exact (diagnostics_monotone (py "SyntaxError: bad") (py "step 3: ")
           (py "; oom") msg_syntax H1 H2).
Defined.

Lemma diagnostics_known (l m : str) :
  In m (diagnostics l) -> In m (map fst fix_table).
Proof.
  intros H. apply diagnostics_In_inv in H as [[-> _] | [p [Hin _]]].
  - unfold fix_table. cbn [map fst In]. auto 10.
  - apply (in_map snd) in Hin. cbn [snd] in Hin.
    unfold spec_rules in Hin. cbn [map snd In] in Hin.
    unfold fix_table. cbn [map fst In]. intuition.
Qed.

Lemma fix_table_sound : forall d f, In (d, f) fix_table -> fix_for d = f.
Proof.
  intros d f H. unfold fix_table in H. cbn [In] in H.
  repeat destruct H as [H | H]; try contradiction;
    injection H as <- <-; vm_compute; reflexivity.
Qed.

(** X5.  For every log text, the fix suggested at each position is the
    one the table gives the diagnostic at that position: the
    permission-denied and the fallback diagnostics get the generic fix,
    the other four their own. *)
Theorem fixes_by_table (build_output : str) :
  Forall2 (fun d f => In (d, f) fix_table)
    (diagnostics (lower build_output))
    (suggested_fixes (diagnostics (lower build_output))).
Proof.
  rewrite FixMapper.suggested_fixes_map.
  apply Forall2_map_r. intros d Hd.
  apply diagnostics_known in Hd.
  apply in_map_iff in Hd as [[d' f] [E Hin]]. cbn [fst] in E. subst d'.
  now rewrite (fix_table_sound d f Hin).
Qed.

Lemma lower_cp_fold (c : Z) : lower_cp (ascii_lower c) = lower_cp c.
Proof.
  unfold lower_cp, ascii_lower.
  destruct (Z.leb_spec 65 c); destruct (Z.leb_spec c 90); cbn [andb];
  repeat (match goal with
          | |- context [Z.eqb ?a ?b] => destruct (Z.eqb_spec a b)
          | |- context [Z.leb ?a ?b] => destruct (Z.leb_spec a b)
          end; cbn [andb]);
    try reflexivity; exfalso; lia.
Qed.

Lemma lower_fold (s : str) : lower (map ascii_lower s) = lower s.
Proof.
  induction s as [|c s IH]; [reflexivity|].
  cbn [map lower flat_map]. fold (lower (map ascii_lower s)) (lower s).
  now rewrite lower_cp_fold, IH.
Qed.

(** X6.  The analysis does not see the case of ASCII letters: two log
    texts that differ only there get the same reply. *)
Theorem analysis_case_insensitive (build_output build_output' : str) :
  map ascii_lower build_output = map ascii_lower build_output' ->
  respond (lower build_output) = respond (lower build_output').
Proof.
  intros H. rewrite <- (lower_fold build_output), H, lower_fold.
  reflexivity.
Qed.

Lemma analysis_case_insensitive_witness :
  map ascii_lower (py "PERMISSION Denied") = map ascii_lower (py "permission denied")
  /\ respond (lower (py "PERMISSION Denied"))
     = respond (lower (py "permission denied")).
Proof.
  split; [reflexivity|].
  apply analysis_case_insensitive. reflexivity.
Defined.

End AnalysisFacts.

(* ================================================================== *)
(** * The routes: what is replied and what is sent upstream *)
(* ================================================================== *)

Module RouteFacts.

Lemma configured (cfg : Config) :
  RENDER_API_TOKEN cfg <> [] -> RENDER_SERVICE_ID cfg <> [] ->
  negb (nonempty (RENDER_API_TOKEN cfg))
  || negb (nonempty (RENDER_SERVICE_ID cfg)) = false.
Proof.
  intros Ht Hs. apply nonempty_true in Ht, Hs. now rewrite Ht, Hs.
Qed.

(** The refusal of an unconfigured server. *)
Lemma get_build_logs_refuses
    (cfg : Config) (env : Env) (sent : list HttpRequest) :
  RENDER_API_TOKEN cfg = [] \/ RENDER_SERVICE_ID cfg = [] ->
  get_build_logs cfg env sent
  = (inl (mkExc RuntimeError config_error_message), sent).
Proof.
  intros [H | H]; unfold get_build_logs; rewrite H; cbn [nonempty negb orb];
    [reflexivity | now rewrite orb_true_r].
Qed.

(** The cases of [get_build_logs] on a configured server. *)
Lemma get_build_logs_cases
    (cfg : Config) (env : Env) (sent : list HttpRequest) :
  RENDER_API_TOKEN cfg <> [] -> RENDER_SERVICE_ID cfg <> [] ->
  snd (get_build_logs cfg env sent) = sent ++ [logs_request cfg]
  /\ match upstream env (logs_request cfg) with
     | inl e => fst (get_build_logs cfg env sent) = inl e
     | inr r =>
         if (400 <=? status_code r) && (status_code r <? 600)
         then exists msg,
                fst (get_build_logs cfg env sent) = inl (mkExc HTTPError msg)
         else fst (get_build_logs cfg env sent) = inr (text r)
     end.
Proof.
  intros Ht Hs. unfold get_build_logs.
  rewrite (configured cfg Ht Hs).
  unfold bind, requests_get. fold (logs_request cfg).
  destruct (upstream env (logs_request cfg)) as [e | r];
    [split; reflexivity|].
  unfold raise_for_status.
  destruct (Z.leb_spec 400 (status_code r));
    destruct (Z.ltb_spec (status_code r) 500);
    destruct (Z.leb_spec 500 (status_code r));
    destruct (Z.ltb_spec (status_code r) 600);
    cbn [andb]; try lia; split; try reflexivity; eexists; reflexivity.
Qed.

(** X7.  With both values set, [get_build_logs] sends its one request
    and makes no second attempt.  A failure of the transport is raised
    as it is; a response with a status from 400 to 599 raises an
    [HTTPError]; any other response, 2xx or not, gives its text. *)
Theorem get_build_logs_outcome
    (cfg : Config) (env : Env) (sent : list HttpRequest) :
  RENDER_API_TOKEN cfg <> [] -> RENDER_SERVICE_ID cfg <> [] ->
  snd (get_build_logs cfg env sent) = sent ++ [logs_request cfg]
  /\ match upstream env (logs_request cfg) with
     | inl e => fst (get_build_logs cfg env sent) = inl e
     | inr r =>
         if (400 <=? status_code r) && (status_code r <? 600)
         then exists msg,
                fst (get_build_logs cfg env sent) = inl (mkExc HTTPError msg)
         else fst (get_build_logs cfg env sent) = inr (text r)
     end.
Proof. exact (get_build_logs_cases cfg env sent). Qed.

Lemma get_build_logs_outcome_witness :
  RENDER_API_TOKEN cfg_render <> [] /\ RENDER_SERVICE_ID cfg_render <> []
  /\ snd (get_build_logs cfg_render (env_status 304 "cached") [])
     = [logs_request cfg_render]
  /\ fst (get_build_logs cfg_render (env_status 304 "cached") [])
     = inr (py "cached").
Proof.
  split; [discriminate|]. split; [discriminate|].
  destruct (get_build_logs_outcome cfg_render (env_status 304 "cached") [])
    as [H1 H2]; [discriminate | discriminate |].
  split; [exact H1 | exact H2].
Defined.

Lemma get_build_logs_sent
    (cfg : Config) (env : Env) (sent : list HttpRequest) :
  snd (get_build_logs cfg env sent) = sent
  \/ snd (get_build_logs cfg env sent) = sent ++ [logs_request cfg].
Proof.
  destruct (RENDER_API_TOKEN cfg) as [|c t] eqn:Et.
  - left. rewrite get_build_logs_refuses; [reflexivity | now left].
  - destruct (RENDER_SERVICE_ID cfg) as [|c' i] eqn:Ei.
    + left.
      rewrite get_build_logs_refuses; [reflexivity | now right].
    + right. apply get_build_logs_cases.
      * rewrite Et. discriminate.
      * rewrite Ei. discriminate.
Qed.

(** X8.  A request that the guard rejects is answered 401 by [/logs] and
    by [/debug] before anything else is looked at: nothing is sent
    upstream, and the body is not read, be it unreadable. *)
Theorem unauthorized_first
    (cfg : Config) (req : Request) (env : Env) (sent : list HttpRequest) :
  simple_auth_ok cfg req = false ->
  fetch_logs cfg req env sent = (inr reply_401, sent)
  /\ debug_with_ai cfg req env sent = (inr reply_401, sent).
Proof.
  intros H. split.
  - unfold fetch_logs, try_except. rewrite H. reflexivity.
  - now apply Routes.debug_unauthorized.
Qed.

Lemma unauthorized_first_witness :
  simple_auth_ok (cfg_keys "k")
    (mkRequest [] (inl (mkExc HTTPException (py "400 Bad Request")))) = false
  /\ fetch_logs (cfg_keys "k")
       (mkRequest [] (inl (mkExc HTTPException (py "400 Bad Request"))))
       env_down []
     = (inr reply_401, [])
  /\ debug_with_ai (cfg_keys "k")
       (mkRequest [] (inl (mkExc HTTPException (py "400 Bad Request"))))
       env_down []
     = (inr reply_401, []).
Proof.
  split; [reflexivity|].
  apply unauthorized_first. reflexivity.
Defined.

(** X9.  [GET /logs] from a caller that is let in, on a configured
    server whose upstream answers with a status outside 400..599,
    replies 200 with status [ok] and the upstream text as [logs], after
    exactly one upstream request. *)
Theorem fetch_logs_ok
    (cfg : Config) (req : Request) (env : Env) (sent : list HttpRequest)
    (r : HttpResponse) :
  simple_auth_ok cfg req = true ->
  RENDER_API_TOKEN cfg <> [] -> RENDER_SERVICE_ID cfg <> [] ->
  upstream env (logs_request cfg) = inr r ->
  status_code r < 400 \/ 600 <= status_code r ->
  fetch_logs cfg req env sent =
  (inr (mkReply 200
          (PDict [ (py "status", PStr (py "ok"));
                   (py "logs", PStr (text r)) ])),
   sent ++ [logs_request cfg]).
Proof.
  intros Hauth Ht Hs Hup Hst.
  destruct (get_build_logs_cases cfg env sent Ht Hs) as [Hsent Hres].
  rewrite Hup in Hres.
  replace ((400 <=? status_code r) && (status_code r <? 600)) with false
    in Hres
    by (symmetry; apply andb_false_iff;
        rewrite Z.leb_gt, Z.ltb_ge; lia).
  unfold fetch_logs, try_except. rewrite Hauth. cbn [negb].
  unfold bind.
  destruct (get_build_logs cfg env sent) as [res sent'].
  cbn [fst snd] in *. subst. reflexivity.
Qed.

Lemma fetch_logs_ok_witness :
  simple_auth_ok cfg_render req_without_key = true
  /\ RENDER_API_TOKEN cfg_render <> [] /\ RENDER_SERVICE_ID cfg_render <> []
  /\ upstream (env_status 200 "build ok") (logs_request cfg_render)
     = inr (mkHttpResponse 200 (py "R") (req_url (logs_request cfg_render))
              (py "build ok"))
  /\ fetch_logs cfg_render req_without_key (env_status 200 "build ok") [] =
     (inr (mkReply 200
             (PDict [ (py "status", PStr (py "ok"));
                      (py "logs", PStr (py "build ok")) ])),
      [logs_request cfg_render]).
Proof.
  split; [reflexivity|]. split; [discriminate|]. split; [discriminate|].
  split; [reflexivity|].
  apply (fetch_logs_ok cfg_render req_without_key
           (env_status 200 "build ok") []
           (mkHttpResponse 200 (py "R") (req_url (logs_request cfg_render))
              (py "build ok"))).
  - reflexivity.
  - discriminate.
  - discriminate.
  - reflexivity.
  - left. reflexivity.
Defined.

(** X10.  On a server where [RENDER_API_TOKEN] or [RENDER_SERVICE_ID]
    is empty, a caller that is let in gets 500 with the configuration
    message and nothing is sent upstream: from [GET /logs], and from
    [POST /debug] when the JSON body brings no logs. *)
Theorem unconfigured_routes
    (cfg : Config) (req : Request) (env : Env) (sent : list HttpRequest) :
  RENDER_API_TOKEN cfg = [] \/ RENDER_SERVICE_ID cfg = [] ->
  simple_auth_ok cfg req = true ->
  fetch_logs cfg req env sent
  = (inr (reply_500 env in_fetch_logs
            (mkExc RuntimeError config_error_message)), sent)
  /\ (brings_no_logs req = true ->
      debug_with_ai cfg req env sent
      = (inr (reply_500 env in_debug_with_ai
                (mkExc RuntimeError config_error_message)), sent)).
Proof.
  intros Hcfg Hauth. split.
  - unfold fetch_logs, try_except. rewrite Hauth. cbn [negb].
    unfold bind. rewrite get_build_logs_refuses by assumption.
    reflexivity.
  - intros Hno. rewrite Routes.debug_brings_no_logs by assumption.
    unfold fetch_and_diagnose, try_except, bind.
    rewrite get_build_logs_refuses by assumption.
    reflexivity.
Qed.

Lemma unconfigured_routes_witness :
  (RENDER_API_TOKEN (cfg_keys "k") = []
   \/ RENDER_SERVICE_ID (cfg_keys "k") = [])
  /\ simple_auth_ok (cfg_keys "k")
       (mkRequest [ (py "X-API-KEY", py "k") ] (inr (PDict []))) = true
  /\ brings_no_logs
       (mkRequest [ (py "X-API-KEY", py "k") ] (inr (PDict []))) = true
  /\ fetch_logs (cfg_keys "k")
       (mkRequest [ (py "X-API-KEY", py "k") ] (inr (PDict []))) env_down []
     = (inr (reply_500 env_down in_fetch_logs
               (mkExc RuntimeError config_error_message)), [])
  /\ debug_with_ai (cfg_keys "k")
       (mkRequest [ (py "X-API-KEY", py "k") ] (inr (PDict []))) env_down []
     = (inr (reply_500 env_down in_debug_with_ai
               (mkExc RuntimeError config_error_message)), []).
Proof.
  split; [now left|]. split; [reflexivity|]. split; [reflexivity|].
  destruct (unconfigured_routes (cfg_keys "k")
              (mkRequest [ (py "X-API-KEY", py "k") ] (inr (PDict [])))
              env_down [])
    as [Hlogs Hdebug]; [now left | reflexivity |].
  split; [exact Hlogs | exact (Hdebug eq_refl)].
Defined.

(** X11.  [fetch_logs] lets no exception out.  It replies 200, 401 or 500,
    401 exactly when the guard rejects the request, and it sends
    upstream nothing or the one log request. *)
Theorem fetch_logs_replies
    (cfg : Config) (req : Request) (env : Env) (sent : list HttpRequest) :
  exists reply sent',
    fetch_logs cfg req env sent = (inr reply, sent')
    /\ (status reply = 200 \/ status reply = 401 \/ status reply = 500)
    /\ (status reply = 401 <-> simple_auth_ok cfg req = false)
    /\ (sent' = sent \/ sent' = sent ++ [logs_request cfg]).
Proof.
  unfold fetch_logs, try_except.
  destruct (simple_auth_ok cfg req); cbn [negb].
  - unfold bind. pose proof (get_build_logs_sent cfg env sent) as Hs.
    destruct (get_build_logs cfg env sent) as [[e | logs] sent'];
      cbn [snd] in Hs; eexists; eexists;
      (split; [reflexivity|]); cbn [status];
      (split; [auto|]); (split; [split; discriminate | exact Hs]).
  - eexists; eexists. split; [reflexivity|]. cbn [status].
    split; [auto|]. split; [split; reflexivity | now left].
Qed.

Lemma py_get_sent (v : PyVal) (key : str) (default : PyVal)
    (env : Env) (sent : list HttpRequest) :
  snd (py_get v key default env sent) = sent.
Proof. destruct v; reflexivity. Qed.

(** The [try] block of [debug_with_ai] returns a 200 or a 401, or
    raises, having sent nothing or the one log request. *)
Lemma debug_try_outcome
    (cfg : Config) (req : Request) (env : Env) (sent sent' : list HttpRequest)
    (res : Exception + Reply) :
  debug_with_ai_try cfg req env sent = (res, sent') ->
  (sent' = sent \/ sent' = sent ++ [logs_request cfg])
  /\ match res with
     | inl _ => simple_auth_ok cfg req = true
     | inr reply =>
         (status reply = 401 /\ simple_auth_ok cfg req = false)
         \/ (status reply = 200 /\ simple_auth_ok cfg req = true)
     end.
Proof.
  intros H. unfold debug_with_ai_try in H.
  destruct (simple_auth_ok cfg req); cbn [negb] in H.
  2: { inversion H; subst. cbn [status]. auto. }
  unfold bind at 1 in H. unfold of_result at 1 in H.
  destruct (json req) as [e | request_json].
  { inversion H; subst. auto. }
  unfold bind at 1 in H.
  pose proof (py_get_sent (py_or request_json (PDict [])) (py "logs")
                PNone env sent) as E.
  destruct (py_get (py_or request_json (PDict [])) (py "logs") PNone env sent)
    as [[e | build_output] sent1].
  { cbn [snd] in E. inversion H; subst. auto. }
  cbn [snd] in E. subst sent1.
  unfold bind at 1 in H.
  destruct (truthy build_output); cbn [negb] in H.
  - unfold ret at 1 in H.
    unfold bind, py_lower, attribute_error, raise, ret in H.
    destruct build_output; inversion H; subst; cbn [status]; auto.
  - unfold bind in H. pose proof (get_build_logs_sent cfg env sent) as Hs.
    destruct (get_build_logs cfg env sent) as [[e | fetched] sent1];
      cbn [snd] in Hs; unfold py_lower, ret in H;
      inversion H; subst; cbn [status]; auto.
Qed.

(** X12.  [debug_with_ai] lets no exception out.  It replies 200, 401 or
    500, 401 exactly when the guard rejects the request, and it sends
    upstream nothing or the one log request. *)
Theorem debug_with_ai_replies
    (cfg : Config) (req : Request) (env : Env) (sent : list HttpRequest) :
  exists reply sent',
    debug_with_ai cfg req env sent = (inr reply, sent')
    /\ (status reply = 200 \/ status reply = 401 \/ status reply = 500)
    /\ (status reply = 401 <-> simple_auth_ok cfg req = false)
    /\ (sent' = sent \/ sent' = sent ++ [logs_request cfg]).
Proof.
  unfold debug_with_ai, try_except.
  destruct (debug_with_ai_try cfg req env sent) as [res sent'] eqn:Htry.
  destruct (debug_try_outcome cfg req env sent sent' res Htry) as [Hs Hr].
  destruct res as [e | reply].
  - eexists; eexists. split; [reflexivity|]. cbn [status].
    split; [auto|]. split; [|exact Hs].
    rewrite Hr. split; discriminate.
  - exists reply, sent'. split; [reflexivity|].
    destruct Hr as [[Hst Ha] | [Hst Ha]]; rewrite Hst, Ha;
      (split; [auto|]); (split; [split; (reflexivity || discriminate)
                                | exact Hs]).
Qed.

(** X13.  [GET /ready] replies 200 with a boolean [ready], sends nothing
    upstream and asks for no key.  [ready] is true exactly when both
    required values are non-empty, and false exactly when
    [get_build_logs] would refuse with the configuration error. *)
Theorem ready_iff_configured
    (cfg : Config) (env : Env) (sent : list HttpRequest) :
  exists b : bool,
    ready cfg env sent
    = (inr (mkReply 200 (PDict [ (py "ready", PBool b) ])), sent)
    /\ (b = true <-> RENDER_API_TOKEN cfg <> [] /\ RENDER_SERVICE_ID cfg <> [])
    /\ (b = false <->
        get_build_logs cfg env sent
        = (inl (mkExc RuntimeError config_error_message), sent)).
Proof.
  unfold ready, try_except, ret, py_and. cbn [truthy].
  destruct (RENDER_API_TOKEN cfg) as [|c t] eqn:Et; cbn [nonempty truthy].
  - exists false. split; [reflexivity|]. split.
    + split; [discriminate | intros [H _]; congruence].
    + split; [|reflexivity]. intros _.
      apply get_build_logs_refuses. now left.
  - destruct (RENDER_SERVICE_ID cfg) as [|c' i] eqn:Ei; cbn [nonempty].
    + exists false. split; [reflexivity|]. split.
      * split; [discriminate | intros [_ H]; congruence].
      * split; [|reflexivity]. intros _.
        apply get_build_logs_refuses. now right.
    + exists true. split; [reflexivity|]. split.
      * split; [intros _; split; discriminate | reflexivity].
      * split; [discriminate|]. intros H. exfalso.
        assert (Hs : snd (get_build_logs cfg env sent)
                     = sent ++ [logs_request cfg]).
        { apply get_build_logs_cases.
          - rewrite Et. discriminate.
          - rewrite Ei. discriminate. }
        rewrite H in Hs. cbn [snd] in Hs.
        apply (f_equal (@List.length _)) in Hs.
        rewrite length_app in Hs. cbn [List.length] in Hs. lia.
Qed.

(** X14.  A caller that is let in and supplies a non-empty string as
    [logs] gets the analysis of that string, whatever the configuration
    and the upstream are: nothing is sent upstream. *)
Theorem supplied_logs_diagnosed
    (cfg : Config) (req : Request) (env : Env) (sent : list HttpRequest)
    (d : list (str * PyVal)) (logs : str) :
  simple_auth_ok cfg req = true ->
  json req = inr (PDict d) ->
  assoc (py "logs") d = Some (PStr logs) ->
  logs <> [] ->
  debug_with_ai cfg req env sent = (inr (respond (lower logs)), sent).
Proof. exact (Routes.debug_supplied_logs cfg req env sent d logs). Qed.

Lemma supplied_logs_diagnosed_witness :
  simple_auth_ok (cfg_keys "k") (mkRequest [ (py "x-api-key", py "k") ]
                    (inr (PDict [ (py "logs", PStr (py "OOM")) ]))) = true
  /\ debug_with_ai (cfg_keys "k")
       (mkRequest [ (py "x-api-key", py "k") ]
          (inr (PDict [ (py "logs", PStr (py "OOM")) ])))
       env_down []
     = (inr (respond (lower (py "OOM"))), []).
Proof.
  split; [reflexivity|].
  apply (supplied_logs_diagnosed (cfg_keys "k")
           (mkRequest [ (py "x-api-key", py "k") ]
              (inr (PDict [ (py "logs", PStr (py "OOM")) ])))
           env_down [] [ (py "logs", PStr (py "OOM")) ] (py "OOM")).
  - reflexivity.
  - reflexivity.
  - vm_compute. reflexivity.
  - discriminate.
Defined.

(** X15.  A [logs] value that is truthy and not a string (a number other
    than zero, [true], a non-empty list or object) is not diagnosed and
    not replaced by fetched logs: the reply is 500 with the message
    that the value has no [lower], and nothing is sent upstream. *)
Theorem debug_non_string_logs
    (cfg : Config) (req : Request) (env : Env) (sent : list HttpRequest)
    (d : list (str * PyVal)) (v : PyVal) :
  simple_auth_ok cfg req = true ->
  json req = inr (PDict d) ->
  assoc (py "logs") d = Some v ->
  truthy v = true ->
  (forall s, v <> PStr s) ->
  debug_with_ai cfg req env sent =
  (inr (reply_500 env in_debug_with_ai
          (mkExc AttributeError
             (py "'" ++ type_name v ++ py "' object has no attribute '"
              ++ py "lower" ++ py "'"))),
   sent).
Proof.
  intros Hauth Hjson Hlogs Hv Hns.
  unfold debug_with_ai, try_except, debug_with_ai_try.
  rewrite Hauth, Hjson. cbn [negb].
  destruct d as [|kv d]; [discriminate|].
  unfold bind, of_result, py_or. cbn [truthy].
  unfold py_get. rewrite Hlogs. unfold ret at 1. rewrite Hv. cbn [negb].
  unfold ret at 1.
  destruct v; try reflexivity.
  exfalso. now apply (Hns s).
Qed.

Lemma debug_non_string_logs_witness :
  simple_auth_ok cfg_render
    (mkRequest [] (inr (PDict [ (py "logs", PList [PStr (py "oom")]) ])))
  = true
  /\ debug_with_ai cfg_render
       (mkRequest [] (inr (PDict [ (py "logs", PList [PStr (py "oom")]) ])))
       (env_answering "unused") []
     = (inr (reply_500 (env_answering "unused") in_debug_with_ai
               (mkExc AttributeError
                  (py "'list' object has no attribute 'lower'"))),
        []).
Proof.
  split; [reflexivity|].
  apply (debug_non_string_logs cfg_render
           (mkRequest [] (inr (PDict [ (py "logs", PList [PStr (py "oom")]) ])))
           (env_answering "unused") []
           [ (py "logs", PList [PStr (py "oom")]) ] (PList [PStr (py "oom")])).
  - reflexivity.
  - reflexivity.
  - vm_compute. reflexivity.
  - reflexivity.
  - discriminate.
Defined.

(** X16.  A JSON body that is truthy and not an object (a non-empty string
    or list, a number other than zero, [true]) has no [get]: the reply
    is 500 with that message, and nothing is sent upstream. *)
Theorem debug_non_dict_body
    (cfg : Config) (req : Request) (env : Env) (sent : list HttpRequest)
    (v : PyVal) :
  simple_auth_ok cfg req = true ->
  json req = inr v ->
  truthy v = true ->
  (forall d, v <> PDict d) ->
  debug_with_ai cfg req env sent =
  (inr (reply_500 env in_debug_with_ai
          (mkExc AttributeError
             (py "'" ++ type_name v ++ py "' object has no attribute '"
              ++ py "get" ++ py "'"))),
   sent).
Proof.
  intros Hauth Hjson Hv Hnd.
  unfold debug_with_ai, try_except, debug_with_ai_try.
  rewrite Hauth, Hjson. cbn [negb].
  unfold bind, of_result, py_or. rewrite Hv.
  destruct v; try reflexivity.
  exfalso. now apply (Hnd d).
Qed.

Lemma debug_non_dict_body_witness :
  simple_auth_ok cfg_render
    (mkRequest [] (inr (PStr (py "pip install failed")))) = true
  /\ debug_with_ai cfg_render
       (mkRequest [] (inr (PStr (py "pip install failed"))))
       (env_answering "unused") []
     = (inr (reply_500 (env_answering "unused") in_debug_with_ai
               (mkExc AttributeError
                  (py "'str' object has no attribute 'get'"))),
        []).
Proof.
  split; [reflexivity|].
  apply (debug_non_dict_body cfg_render
           (mkRequest [] (inr (PStr (py "pip install failed"))))
           (env_answering "unused") [] (PStr (py "pip install failed"))).
  - reflexivity.
  - reflexivity.
  - reflexivity.
  - discriminate.
Defined.

(** X17.  For a caller that is let in, [POST /debug] with a JSON body
    that brings no logs does what [GET /logs] does and then diagnoses:
    when [/logs] replies 200 with a text, [/debug] replies the analysis
    of that text; when [/logs] replies 500, it does so for an exception
    for which [/debug] replies 500 too, with the same message and the
    trace of its own handler; the requests sent upstream are the
    same. *)
Theorem debug_after_fetch_logs
    (cfg : Config) (req : Request) (env : Env) (sent : list HttpRequest) :
  simple_auth_ok cfg req = true ->
  brings_no_logs req = true ->
  (forall t sent',
     fetch_logs cfg req env sent
     = (inr (mkReply 200 (PDict [ (py "status", PStr (py "ok"));
                                  (py "logs", PStr t) ])), sent') ->
     debug_with_ai cfg req env sent = (inr (respond (lower t)), sent'))
  /\ (forall reply sent',
        fetch_logs cfg req env sent = (inr reply, sent') ->
        status reply = 500 ->
        exists e,
          reply = reply_500 env in_fetch_logs e
          /\ debug_with_ai cfg req env sent
             = (inr (reply_500 env in_debug_with_ai e), sent')).
Proof.
  intros Hauth Hno.
  rewrite (Routes.debug_brings_no_logs cfg req env sent Hauth Hno).
  unfold fetch_and_diagnose, fetch_logs, try_except, bind.
  rewrite Hauth. cbn [negb].
  destruct (get_build_logs cfg env sent) as [[e | logs] sent1]; split.
  - intros t sent' H. unfold error_reply, bind, traceback_format_exc, ret in H.
    inversion H.
  - intros reply sent' H _.
    unfold error_reply, bind, traceback_format_exc, ret in *.
    inversion H; subst. exists e. split; reflexivity.
  - intros t sent' H. unfold ret in *. now inversion H.
  - intros reply sent' H Hst. unfold ret in H. inversion H; subst.
    cbn [status] in Hst. discriminate.
Qed.

Lemma debug_after_fetch_logs_witness :
  simple_auth_ok cfg_render (mkRequest [] (inr (PDict []))) = true
  /\ brings_no_logs (mkRequest [] (inr (PDict []))) = true
  /\ fetch_logs cfg_render (mkRequest [] (inr (PDict [])))
       (env_answering "Killed: out of memory") []
     = (inr (mkReply 200 (PDict [ (py "status", PStr (py "ok"));
                                  (py "logs", PStr (py "Killed: out of memory")) ])),
        [logs_request cfg_render])
  /\ debug_with_ai cfg_render (mkRequest [] (inr (PDict [])))
       (env_answering "Killed: out of memory") []
     = (inr (respond (lower (py "Killed: out of memory"))),
        [logs_request cfg_render]).
Proof.
  assert (H : fetch_logs cfg_render (mkRequest [] (inr (PDict [])))
                (env_answering "Killed: out of memory") []
              = (inr (mkReply 200
                        (PDict [ (py "status", PStr (py "ok"));
                                 (py "logs", PStr (py "Killed: out of memory")) ])),
                 [logs_request cfg_render])).
  { vm_compute. reflexivity. }
  split; [reflexivity|]. split; [reflexivity|]. split; [exact H|].
  destruct (debug_after_fetch_logs cfg_render (mkRequest [] (inr (PDict [])))
              (env_answering "Killed: out of memory") [])
    as [H200 _]; [reflexivity | reflexivity |].
  exact (H200 _ _ H).
Defined.

(** The failing side of the same comparison, with the upstream down:
    the two routes give the same message and each its own trace. *)
Example upstream_down_run :
  fetch_logs cfg_render (mkRequest [] (inr (PDict []))) env_down []
  = (inr (reply_500 env_down in_fetch_logs
            (mkExc RequestException (py "connection refused"))),
     [logs_request cfg_render])
  /\ debug_with_ai cfg_render (mkRequest [] (inr (PDict []))) env_down []
     = (inr (reply_500 env_down in_debug_with_ai
               (mkExc RequestException (py "connection refused"))),
        [logs_request cfg_render])
  /\ format_exc env_down in_fetch_logs
       (mkExc RequestException (py "connection refused"))
     <> format_exc env_down in_debug_with_ai
          (mkExc RequestException (py "connection refused")).
Proof.
  split; [vm_compute; reflexivity|]. split; [vm_compute; reflexivity|].
  intros H. apply str_eqb_eq in H. vm_compute in H. discriminate.
Qed.

End RouteFacts.
